(** * The metrics server (server/index.js): sampler and broadcast loop

    A shallow embedding of [server/index.js].  The server is plain
    JavaScript, so the host facts returned by the [systeminformation]
    collaborator are dynamically typed: they are modelled as JSON-like
    values, numbers being IEEE 754 binary64 floats (the kernel's
    primitive floats), and every property access, [||], [/], [*],
    [.map] and [.slice] follows the JavaScript rule for the operand it
    meets, including the [TypeError] it raises on [null] and
    [undefined]. *)

From Stdlib Require Import ZArith List String Bool Lia Sorted.
From Stdlib Require Import Floats Uint63.
Import ListNotations.

Set Warnings "-register-all".

Local Open Scope string_scope.
Local Open Scope list_scope.

(** ** JavaScript values *)

(** The values a response of the collaborator is made of: plain data
    (no functions, getters, symbols or sparse arrays).  An object is
    the list of its own properties, in insertion order. *)
Inductive value : Type :=
| VUndefined
| VNull
| VBool (b : bool)
| VNum (x : float)
| VStr (s : string)
| VArr (elems : list value)
| VObj (props : list (string * value)).

(** What a [throw] carries: the engine's [TypeError], or the reason a
    promise of the collaborator was rejected with. *)
Inductive exn : Type :=
| TypeError
| Reason (r : value).

(** The outcome of evaluating an expression. *)
Inductive completion (A : Type) : Type :=
| Normal (a : A)
| Throw (e : exn).

Arguments Normal {A} a.
Arguments Throw {A} e.

Definition bind {A B : Type} (c : completion A) (k : A -> completion B) : completion B :=
  match c with
  | Normal a => k a
  | Throw e => Throw e
  end.

Notation "x <- c ;; k" := (bind c (fun x => k))
  (at level 61, c at next level, right associativity).

(** A promise of the collaborator, once settled. *)
Inductive promise : Type :=
| Fulfilled (v : value)
| Rejected (r : value).

(** [await p]. *)
Definition await (p : promise) : completion value :=
  match p with
  | Fulfilled v => Normal v
  | Rejected r => Throw (Reason r)
  end.

(** [await Promise.all(ps)]: the values in the order of [ps], or a
    throw as soon as one promise is rejected.  JavaScript reports the
    rejection that happens first in time; the model reports the first
    in the array, the difference being only what [console.error]
    prints. *)
Fixpoint Promise_all (ps : list promise) : completion (list value) :=
  match ps with
  | [] => Normal []
  | p :: ps' =>
      v <- await p ;;
      vs <- Promise_all ps' ;;
      Normal (v :: vs)
  end.

(** Own-property lookup; a missing property reads as [undefined]. *)
Fixpoint lookup (p : string) (props : list (string * value)) : value :=
  match props with
  | [] => VUndefined
  | (k, v) :: rest => if String.eqb k p then v else lookup p rest
  end.

(** [o.p] for a property name [p] that no prototype defines (none of
    the names read by the server is [length], an index or a method):
    a [TypeError] on [undefined] and [null], the own property of an
    object, [undefined] on an array or a primitive. *)
Definition get (o : value) (p : string) : completion value :=
  match o with
  | VUndefined | VNull => Throw TypeError
  | VObj props => Normal (lookup p props)
  | VBool _ | VNum _ | VStr _ | VArr _ => Normal VUndefined
  end.

Notation "o .[ p ]" := (get o p) (at level 1, left associativity, format "o .[ p ]").

(** An object literal [{k1: e1, ..., kn: en}]: the initialisers are
    evaluated in source order and the first throw aborts. *)
Fixpoint properties (inits : list (string * completion value))
  : completion (list (string * value)) :=
  match inits with
  | [] => Normal []
  | (k, c) :: rest =>
      v <- c ;;
      vs <- properties rest ;;
      Normal ((k, v) :: vs)
  end.

Definition object (inits : list (string * completion value)) : completion value :=
  vs <- properties inits ;;
  Normal (VObj vs).

(** [f] applied to the elements from left to right. *)
Fixpoint map_elems (f : value -> completion value) (l : list value)
  : completion (list value) :=
  match l with
  | [] => Normal []
  | x :: l' =>
      y <- f x ;;
      ys <- map_elems f l' ;;
      Normal (y :: ys)
  end.

(** [a.map(f)]: only an array has a [map] method; on anything else the
    call raises a [TypeError] (reading [map] of [undefined] or [null],
    or calling something that is not a function). *)
Definition js_map (a : value) (f : value -> completion value) : completion value :=
  match a with
  | VArr l => ys <- map_elems f l ;; Normal (VArr ys)
  | _ => Throw TypeError
  end.

(** [a.slice(0, n)]: arrays and strings have a [slice] method (the
    string case is kept for completeness; the server calls [.map] on
    the result, which a string does not have). *)
Definition js_slice0 (a : value) (n : nat) : completion value :=
  match a with
  | VArr l => Normal (VArr (firstn n l))
  | VStr s => Normal (VStr (String.substring 0 n s))
  | _ => Throw TypeError
  end.

(** [ToBoolean]: [undefined], [null], [false], [+0], [-0], [NaN] and
    the empty string are falsy. *)
Definition ToBoolean (v : value) : bool :=
  match v with
  | VUndefined | VNull => false
  | VBool b => b
  | VNum x => negb (PrimFloat.eqb x 0 || negb (PrimFloat.eqb x x))
  | VStr s => negb (String.eqb s "")
  | VArr _ | VObj _ => true
  end.

(** [a || b]. *)
Definition js_or (a b : value) : value :=
  if ToBoolean a then a else b.

(** ** Effects the server performs *)

Definition socket : Type := string.

Inductive effect : Type :=
| Called (fn : string)
    (** [si.fn()] was invoked *)
| Emitted (to : socket) (event : string) (payload : value)
    (** an event was pushed to one connected socket *)
| ConsoleError (msg : string) (e : exn)
| ConsoleLog (msg : string) (n : Z)
    (** a template string: its text and the interpolated counter *)
| Responded (body : value)
    (** [res.json(body)] *).

(** ** Reading a value in a statement *)

(** The property [p] of [o], read without effect: [undefined] when
    [o] is not an object or has no such property. *)
Definition field (o : value) (p : string) : value :=
  match o with
  | VObj props => lookup p props
  | _ => VUndefined
  end.

(** A number that is greater than or equal to 0. *)
Definition nonneg_number (v : value) : bool :=
  match v with
  | VNum x => PrimFloat.leb 0 x
  | _ => false
  end.

(** The integer [n] as a JavaScript number. *)
Definition number_of_Z (n : Z) : float :=
  if (n <? 0)%Z
  then PrimFloat.opp (PrimFloat.of_uint63 (Uint63.of_Z (- n)))
  else PrimFloat.of_uint63 (Uint63.of_Z n).

(** [undefined] and [null], the two values a property cannot be read
    from. *)
Definition nullish (v : value) : bool :=
  match v with
  | VUndefined | VNull => true
  | _ => false
  end.

(** The names of the own properties of an object, in order. *)
Definition keys (v : value) : list string :=
  match v with
  | VObj props => map fst props
  | _ => []
  end.

(** No element of [l] is [undefined] or [null]. *)
Definition readable (l : list value) : bool :=
  forallb (fun x => negb (nullish x)) l.

(** What a settled promise holds, [undefined] for a rejected one. *)
Definition settled_value (p : promise) : value :=
  match p with
  | Fulfilled v => v
  | Rejected _ => VUndefined
  end.

Definition is_fulfilled (p : promise) : bool :=
  match p with
  | Fulfilled _ => true
  | Rejected _ => false
  end.

(** ** Stub collaborators for the worked examples *)

(** A collaborator that fulfils [si.fn()] with the fact filed under
    [fn]. *)
Definition stub (facts : list (string * value)) : string -> promise :=
  fun fn => Fulfilled (lookup fn facts).

(** The same, with [si.bad()] rejected. *)
Definition stub_failing (facts : list (string * value)) (bad : string)
  : string -> promise :=
  fun fn => if String.eqb fn bad then Rejected (VStr "EACCES") else stub facts fn.

Definition a_process (i : nat) : value :=
  VObj [("pid", VNum (number_of_Z (Z.of_nat i))); ("name", VStr "node");
        ("cpu", VNum 1.5); ("mem", VNum 0.25); ("state", VStr "sleeping")].

(** A host with one volume, one interface whose rates are not known
    yet (the first sample after start), and twelve processes. *)
Definition host_facts : list (string * value) :=
  [("cpu", VObj [("brand", VStr "Core i7"); ("cores", VNum 8);
                 ("physicalCores", VNum 4); ("speed", VNum 2.5)]);
   ("mem", VObj [("total", VNum 100); ("used", VNum 50); ("available", VNum 50)]);
   ("fsSize", VArr [VObj [("fs", VStr "/dev/sda1"); ("size", VNum 200);
                          ("used", VNum 50); ("available", VNum 150)]]);
   ("networkStats", VArr [VObj [("iface", VStr "eth0"); ("rx_sec", VNull);
                                ("tx_sec", VNum 12)]]);
   ("currentLoad", VObj [("currentLoad", VNum 37.5); ("currentLoadUser", VNum 20)]);
   ("osInfo", VObj [("hostname", VStr "box"); ("platform", VStr "linux");
                    ("arch", VStr "x64"); ("kernel", VStr "6.1"); ("uptime", VNum 3600)]);
   ("system", VObj [("manufacturer", VStr ""); ("model", VStr ""); ("version", VStr "");
                    ("serial", VStr "")]);
   ("graphics", VObj [("controllers", VArr [VObj [("vendor", VStr "Intel");
                                                  ("model", VStr "UHD"); ("vram", VNum 1024)]])]);
   ("processes", VObj [("all", VNum 12); ("running", VNum 1); ("sleeping", VNum 11);
                       ("list", VArr (map a_process (seq 1 12)))])].

(** The same host with a collaborator that reports a negative
    receive rate for the interface. *)
Definition host_facts_negative_rate : list (string * value) :=
  ("networkStats", VArr [VObj [("iface", VStr "eth0"); ("rx_sec", VNum (-5));
                               ("tx_sec", VNum 12)]]) :: host_facts.

(** The language conversions used in the worked examples, none of
    which converts a string or an object to a number. *)
Definition nan_of {A : Type} (_ : A) : float := nan.

Section Runtime.

(** The two conversions of [ToNumber] that need the number grammar:
    of a string, and of an object (through its string form).  They
    belong to the language, not to the server; the development is
    parametric in them. *)
Variable StringToNumber : string -> float.
Variable ObjectToNumber : value -> float.

Definition ToNumber (v : value) : float :=
  match v with
  | VUndefined => nan
  | VNull => 0
  | VBool b => if b then 1 else 0
  | VNum x => x
  | VStr s => StringToNumber s
  | VArr _ | VObj _ => ObjectToNumber v
  end%float.

(** [a / b] and [a * b]. *)
Definition js_div (a b : value) : value := VNum (ToNumber a / ToNumber b)%float.
Definition js_mul (a b : value) : value := VNum (ToNumber a * ToNumber b)%float.

(** ** The sampler: [getSystemMetrics] *)

(** The nine functions of the collaborator, in the order of the array
    given to [Promise.all]. *)
Definition queries : list string :=
  ["cpu"; "mem"; "fsSize"; "networkStats"; "currentLoad";
   "osInfo"; "system"; "graphics"; "processes"].

(** The object literal returned inside the [try], lines 47-102, one
    definition for each nested literal; [now] is what [Date.now()]
    returned. *)

(** Lines 49-56. *)
Definition cpu_record (cpu currentLoad : value) : completion value :=
  object [
    ("brand", cpu.["brand"]);
    ("cores", cpu.["cores"]);
    ("physicalCores", cpu.["physicalCores"]);
    ("usage", currentLoad.["currentLoad"]);
    ("speed", cpu.["speed"]);
    ("temperature", u <- currentLoad.["currentLoadUser"] ;; Normal (js_or u (VNum 0)))
  ].

(** Lines 57-62. *)
Definition memory_record (memory : value) : completion value :=
  object [
    ("total", memory.["total"]);
    ("used", memory.["used"]);
    ("available", memory.["available"]);
    ("percentage",
      u <- memory.["used"] ;; t <- memory.["total"] ;;
      Normal (js_mul (js_div u t) (VNum 100)))
  ].

(** Lines 63-69, the arrow function. *)
Definition disk_entry (d : value) : completion value :=
  object [
    ("fs", d.["fs"]);
    ("size", d.["size"]);
    ("used", d.["used"]);
    ("available", d.["available"]);
    ("percentage",
      u <- d.["used"] ;; s <- d.["size"] ;;
      Normal (js_mul (js_div u s) (VNum 100)))
  ].

(** Lines 70-74, the arrow function. *)
Definition network_entry (n : value) : completion value :=
  object [
    ("iface", n.["iface"]);
    ("rx_sec", r <- n.["rx_sec"] ;; Normal (js_or r (VNum 0)));
    ("tx_sec", t <- n.["tx_sec"] ;; Normal (js_or t (VNum 0)))
  ].

(** Lines 75-85. *)
Definition device_record (osInfo system : value) : completion value :=
  object [
    ("hostname", osInfo.["hostname"]);
    ("platform", osInfo.["platform"]);
    ("arch", osInfo.["arch"]);
    ("kernel", osInfo.["kernel"]);
    ("uptime", osInfo.["uptime"]);
    ("manufacturer", system.["manufacturer"]);
    ("model", system.["model"]);
    ("version", system.["version"]);
    ("serial", system.["serial"])
  ].

(** Lines 90-95, the arrow function. *)
Definition process_entry (p : value) : completion value :=
  object [
    ("pid", p.["pid"]);
    ("name", p.["name"]);
    ("cpu", p.["cpu"]);
    ("mem", p.["mem"])
  ].

(** Lines 86-96. *)
Definition processes_record (processes : value) : completion value :=
  object [
    ("all", processes.["all"]);
    ("running", processes.["running"]);
    ("sleeping", processes.["sleeping"]);
    ("list",
      l <- processes.["list"] ;;
      top <- js_slice0 l 10 ;;
      js_map top process_entry)
  ].

(** Lines 97-101, the arrow function. *)
Definition graphics_entry (g : value) : completion value :=
  object [
    ("vendor", g.["vendor"]);
    ("model", g.["model"]);
    ("vram", g.["vram"])
  ].

Definition snapshot (now : float)
  (cpu memory disk network currentLoad osInfo system graphics processes : value)
  : completion value :=
  object [
    ("timestamp", Normal (VNum now));
    ("cpu", cpu_record cpu currentLoad);
    ("memory", memory_record memory);
    ("disk", js_map disk disk_entry);
    ("network", js_map network network_entry);
    ("device", device_record osInfo system);
    ("processes", processes_record processes);
    ("graphics", c <- graphics.["controllers"] ;; js_map c graphics_entry)
  ].

(** The body of the [try] block, from the point where the nine
    promises have settled: [si fn] is the settled promise that
    [si.fn()] returned.  [Promise.all] yields one value for each of
    the nine promises, so the destructuring always takes the first
    branch. *)
Definition try_body (si : string -> promise) (now : float) : completion value :=
  rs <- Promise_all (map si queries) ;;
  match rs with
  | [cpu; memory; disk; network; currentLoad; osInfo; system; graphics; processes] =>
      snapshot now cpu memory disk network currentLoad osInfo system graphics processes
  | _ => Throw TypeError
  end.

(** [getSystemMetrics], resumed after the [await]: the value the
    function returns and what it writes to the console.  The [catch]
    covers the whole body, so the function itself never throws. *)
Definition getSystemMetrics (si : string -> promise) (now : float)
  : value * list effect :=
  match try_body si now with
  | Normal metrics => (metrics, [])
  | Throw error => (VNull, [ConsoleError "Error getting system metrics:" error])
  end.

(** ** The broadcast server *)

(** [connectedClients] is the module-level counter.  [sockets] is
    socket.io's registry of connected sockets, which [io.emit] fans
    out to: a socket is in it from its [connection] event to its
    [disconnect] event.  [pending] counts the timer callbacks that are
    suspended at [await getSystemMetrics()].

    The counter is a JavaScript number holding an integer; it is
    modelled as [Z] (numbers are exact on integers below 2^53). *)
Record state : Type := mkState {
  connectedClients : Z;
  sockets : list socket;
  pending : nat
}.

Definition init : state :=
  {| connectedClients := 0; sockets := []; pending := 0 |}.

(** What the event loop dispatches.  [Settled si now] is the moment
    the [Promise.all] of one suspended callback settles: [si fn] is
    the outcome of the promise [si.fn()] returned, and [now] the
    reading [Date.now()] gives when the callback resumes. *)
Inductive event : Type :=
| Connection (s : socket)
| Disconnect (s : socket)
| Tick
| Settled (si : string -> promise) (now : float)
| GetHealth.

Fixpoint remove_first (s : socket) (l : list socket) : list socket :=
  match l with
  | [] => []
  | x :: l' => if String.eqb x s then l' else x :: remove_first s l'
  end.

Definition connected (s : socket) (st : state) : bool :=
  existsb (String.eqb s) (sockets st).

(** [io.on('connection', ...)], lines 22-30. *)
Definition on_connection (st : state) (s : socket) : state * list effect :=
  let n := (connectedClients st + 1)%Z in
  ({| connectedClients := n; sockets := sockets st ++ [s]; pending := pending st |},
   [ConsoleLog "Client connected. Total: " n]).

(** [socket.on('disconnect', ...)], lines 26-29: the handler exists
    on the sockets that went through [on_connection] only. *)
Definition on_disconnect (st : state) (s : socket) : state * list effect :=
  if connected s st then
    let n := (connectedClients st - 1)%Z in
    ({| connectedClients := n; sockets := remove_first s (sockets st);
        pending := pending st |},
     [ConsoleLog "Client disconnected. Total: " n])
  else (st, []).

(** [io.emit(ev, payload)]. *)
Definition io_emit (st : state) (ev : string) (payload : value) : list effect :=
  map (fun s => Emitted s ev payload) (sockets st).

(** The timer callback up to its [await], lines 110-112: when the
    counter is positive, [getSystemMetrics()] is entered and runs to
    its own [await], invoking the nine functions of the collaborator
    on the way. *)
Definition on_tick (st : state) : state * list effect :=
  if (0 <? connectedClients st)%Z then
    ({| connectedClients := connectedClients st; sockets := sockets st;
        pending := S (pending st) |},
     map Called queries)
  else (st, []).

(** The timer callback resumed, lines 112-115. *)
Definition on_settled (st : state) (si : string -> promise) (now : float)
  : state * list effect :=
  match pending st with
  | O => (st, [])
  | S k =>
      let (metrics, log) := getSystemMetrics si now in
      ({| connectedClients := connectedClients st; sockets := sockets st;
          pending := k |},
       log ++ (if ToBoolean metrics then io_emit st "systemMetrics" metrics else []))
  end.

(** [app.get('/health', ...)], lines 120-122. *)
Definition on_health (st : state) : state * list effect :=
  (st, [Responded (VObj [("status", VStr "OK");
                         ("connectedClients", VNum (number_of_Z (connectedClients st)))])]).

Definition step (st : state) (ev : event) : state * list effect :=
  match ev with
  | Connection s => on_connection st s
  | Disconnect s => on_disconnect st s
  | Tick => on_tick st
  | Settled si now => on_settled st si now
  | GetHealth => on_health st
  end.

(** A run of the event loop: the final state and everything done. *)
Fixpoint run (st : state) (evs : list event) : state * list effect :=
  match evs with
  | [] => (st, [])
  | ev :: evs' =>
      let (st1, out1) := step st ev in
      let (st2, out2) := run st1 evs' in
      (st2, out1 ++ out2)
  end.

(** ** Observations of a run *)

(** The [systemMetrics] pushes among the effects. *)
Definition is_emit (e : effect) : bool :=
  match e with
  | Emitted _ _ _ => true
  | _ => false
  end.

Definition emissions (out : list effect) : list effect := filter is_emit out.

(** What the viewer on socket [s] receives as [systemMetrics]. *)
Definition received (s : socket) (out : list effect) : list value :=
  flat_map (fun e =>
    match e with
    | Emitted to ev m =>
        if String.eqb to s && String.eqb ev "systemMetrics" then [m] else []
    | _ => []
    end) out.

(** Every connection of the run is that of a socket that is not
    connected already (socket.io gives each socket an id of its
    own). *)
Fixpoint fresh_connections (st : state) (evs : list event) : Prop :=
  match evs with
  | [] => True
  | ev :: evs' =>
      match ev with
      | Connection s => connected s st = false
      | _ => True
      end /\ fresh_connections (fst (step st ev)) evs'
  end.

(** The collaborator functions invoked among the effects. *)
Definition calls (out : list effect) : list string :=
  flat_map (fun e => match e with Called fn => [fn] | _ => [] end) out.

(** The snapshot the sampler hands to the timer callback at this
    event, if any. *)
Definition sampled (st : state) (ev : event) : list value :=
  match ev, pending st with
  | Settled si now, S _ =>
      let m := fst (getSystemMetrics si now) in
      if ToBoolean m then [m] else []
  | _, _ => []
  end.

(** The snapshots produced along a run, in order of production. *)
Fixpoint snapshots (st : state) (evs : list event) : list value :=
  match evs with
  | [] => []
  | ev :: evs' => sampled st ev ++ snapshots (fst (step st ev)) evs'
  end.

(** The clock readings of a run, in order. *)
Fixpoint readings (evs : list event) : list float :=
  match evs with
  | [] => []
  | Settled _ now :: evs' => now :: readings evs'
  | _ :: evs' => readings evs'
  end.

(** The ticks of a run that find a positive counter, and the
    callbacks resumed in it. *)
Fixpoint sampling_ticks (st : state) (evs : list event) : nat :=
  match evs with
  | [] => 0
  | ev :: evs' =>
      (match ev with
       | Tick => if (0 <? connectedClients st)%Z then 1 else 0
       | _ => 0
       end + sampling_ticks (fst (step st ev)) evs')%nat
  end.

Fixpoint resumed (st : state) (evs : list event) : nat :=
  match evs with
  | [] => 0
  | ev :: evs' =>
      (match ev, pending st with
       | Settled _ _, S _ => 1
       | _, _ => 0
       end + resumed (fst (step st ev)) evs')%nat
  end.

(** What the snapshot keeps of an entry of the process table. *)
Definition process_summary (p : value) : value :=
  VObj [("pid", field p "pid"); ("name", field p "name");
        ("cpu", field p "cpu"); ("mem", field p "mem")].

(** [t1 <= t2] on two timestamps. *)
Definition timestamp_le (m1 m2 : value) : Prop :=
  match field m1 "timestamp", field m2 "timestamp" with
  | VNum t1, VNum t2 => PrimFloat.leb t1 t2 = true
  | _, _ => False
  end.

(** The counter is the size of the registry. *)
Definition counter_matches (st : state) : Prop :=
  connectedClients st = Z.of_nat (List.length (sockets st)).

(** The body [/health] answers with when the counter is [n]. *)
Definition health_body (n : Z) : value :=
  VObj [("status", VStr "OK"); ("connectedClients", VNum (number_of_Z n))].

(** The clock never goes back along the readings [l]. *)
Definition clock_nondecreasing (l : list float) : Prop :=
  StronglySorted (fun t1 t2 => PrimFloat.leb t1 t2 = true) l.

(** ** Runs for the worked examples *)

(** Two viewers connected, no callback pending. *)
Definition two_viewers : state :=
  {| connectedClients := 2; sockets := ["a"; "b"]; pending := 0 |}.

(** One viewer connects and two ticks follow, each resumed with a
    snapshot before the next: the clock reads 1000 and then 2000. *)
Definition two_ticks : list event :=
  [Connection "a"; Tick; Settled (stub host_facts) 1000;
   Tick; Settled (stub host_facts) 2000].

(** *** Which tick a snapshot belongs to *)

(** Every firing of the timer starts a callback of its own, and the
    callbacks suspended at their [await] resume in the order their
    samples complete.  A timeline is a run in which every settlement
    is tagged with the number of the tick whose callback it resumes,
    the ticks of the run being numbered from 0 in the order they
    fire; the tag of the other events is not used. *)
Definition timeline : Type := list (event * nat).

Definition events (tl : timeline) : list event := map fst tl.

(** The tags are those of a real execution: a settlement resumes the
    callback of a tick that has fired with a positive counter and has
    not been resumed yet.  [fired] counts the ticks so far and
    [suspended] lists the ticks whose callback is waiting. *)
Fixpoint well_tagged (fired : nat) (suspended : list nat) (st : state) (tl : timeline)
  : bool :=
  match tl with
  | [] => true
  | (ev, k) :: tl' =>
      let st' := fst (step st ev) in
      match ev with
      | Tick =>
          well_tagged (S fired)
            (if (0 <? connectedClients st)%Z then suspended ++ [fired] else suspended)
            st' tl'
      | Settled _ _ =>
          existsb (Nat.eqb k) suspended
          && well_tagged fired (List.remove Nat.eq_dec k suspended) st' tl'
      | _ => well_tagged fired suspended st' tl'
      end
  end.

(** A snapshot as it is built: the tick whose callback built it, the
    reading [Date.now()] gave, and the snapshot. *)
Record capture : Type := mkCapture {
  c_tick : nat;
  c_reading : float;
  c_snapshot : value
}.

Definition captured (st : state) (ev : event) (k : nat) : list capture :=
  match ev with
  | Settled si now => map (mkCapture k now) (sampled st ev)
  | _ => []
  end.

(** The snapshots built along a timeline, in the order they are
    built. *)
Fixpoint captures (st : state) (tl : timeline) : list capture :=
  match tl with
  | [] => []
  | (ev, k) :: tl' => captured st ev k ++ captures (fst (step st ev)) tl'
  end.

(** Three ticks, each sample complete before the next tick; the first
    sample fails (the clock is not read), and the clock reads 1000
    and 2000 at the two snapshots. *)
Definition three_ticks_in_order : timeline :=
  [(Connection "a", 0); (Tick, 0); (Settled (stub_failing host_facts "mem") 5000, 0);
   (Tick, 0); (Settled (stub host_facts) 1000, 1);
   (Tick, 0); (Settled (stub host_facts) 2000, 2)]%nat.

(** Two ticks, each sample complete before the next tick, with the
    wall clock set back in between: it reads 2000 and then 1000. *)
Definition two_ticks_clock_set_back : timeline :=
  [(Connection "a", 0); (Tick, 0); (Settled (stub host_facts) 2000, 0);
   (Tick, 0); (Settled (stub host_facts) 1000, 1)]%nat.

(** Two ticks whose samples overlap: the sample of the second tick
    completes first, at 1100, and the sample of the first tick at
    2500.  The clock never goes back. *)
Definition two_ticks_overlapping : timeline :=
  [(Connection "a", 0); (Tick, 0); (Tick, 0);
   (Settled (stub host_facts) 1100, 1); (Settled (stub host_facts) 2500, 0)]%nat.

(** ** What the sampler needs of the responses *)

(** What the snapshot keeps of a volume, of an interface and of a
    graphics controller. *)
Definition disk_summary (d : value) : value :=
  VObj [("fs", field d "fs"); ("size", field d "size"); ("used", field d "used");
        ("available", field d "available");
        ("percentage", js_mul (js_div (field d "used") (field d "size")) (VNum 100))].

Definition network_summary (n : value) : value :=
  VObj [("iface", field n "iface");
        ("rx_sec", js_or (field n "rx_sec") (VNum 0));
        ("tx_sec", js_or (field n "tx_sec") (VNum 0))].

Definition graphics_summary (g : value) : value :=
  VObj [("vendor", field g "vendor"); ("model", field g "model");
        ("vram", field g "vram")].

(** An array none of whose elements is [undefined] or [null]. *)
Definition readable_array (a : value) : bool :=
  match a with
  | VArr l => readable l
  | _ => false
  end.

(** An array whose first [n] elements are neither [undefined] nor
    [null]. *)
Definition readable_prefix (n : nat) (a : value) : bool :=
  match a with
  | VArr l => readable (firstn n l)
  | _ => false
  end.

(** The conditions under which the object literal can be built. *)
Definition literal_readable
  (cpu memory disk network currentLoad osInfo system graphics processes : value) : bool :=
  negb (nullish cpu) && negb (nullish memory)
  && readable_array disk && readable_array network
  && negb (nullish currentLoad) && negb (nullish osInfo) && negb (nullish system)
  && negb (nullish graphics) && readable_array (field graphics "controllers")
  && negb (nullish processes) && readable_prefix 10 (field processes "list").

(** The nine promises are fulfilled and the object literal can be
    built from their values. *)
Definition samplable (si : string -> promise) : bool :=
  forallb (fun q => is_fulfilled (si q)) queries
  && literal_readable
       (settled_value (si "cpu")) (settled_value (si "mem"))
       (settled_value (si "fsSize")) (settled_value (si "networkStats"))
       (settled_value (si "currentLoad")) (settled_value (si "osInfo"))
       (settled_value (si "system")) (settled_value (si "graphics"))
       (settled_value (si "processes")).

(** What the unguarded division makes of [used] and [total]: the
    percentage [pct] is [NaN] when either operand converts to [NaN]
    and when both are zero, and it is [+Infinity] when [total] is
    zero and [used] is positive. *)
Definition percentage_edges (used total pct : value) : Prop :=
  (PrimFloat.eqb (ToNumber total) (ToNumber total) = false -> pct = VNum nan) /\
  (PrimFloat.eqb (ToNumber used) (ToNumber used) = false -> pct = VNum nan) /\
  (ToNumber total = 0%float -> ToNumber used = 0%float -> pct = VNum nan) /\
  (ToNumber total = 0%float -> PrimFloat.ltb 0 (ToNumber used) = true ->
   pct = VNum infinity).

(** ** The colours of the monitor (client, [SystemMonitor.tsx]) *)

(** [a < n] for a number literal [n]: the operands are not both
    strings, so [a] is converted to a number, and the comparison is
    false when that number is [NaN]. *)
Definition js_lt_number (a : value) (n : float) : bool :=
  PrimFloat.ltb (ToNumber a) n.

Definition getUsageColor (percentage : value) : string :=
  if js_lt_number percentage 30 then "#22c55e"
  else if js_lt_number percentage 60 then "#3b82f6"
  else if js_lt_number percentage 80 then "#fbbf24"
  else "#ef4444".

Definition getCPUColor (percentage : value) : string :=
  if js_lt_number percentage 30 then "linear-gradient(90deg, #22c55e, #34d399)"
  else if js_lt_number percentage 60 then "linear-gradient(90deg, #3b82f6, #60a5fa)"
  else if js_lt_number percentage 80 then "linear-gradient(90deg, #fbbf24, #fcd34d)"
  else "linear-gradient(90deg, #ef4444, #f87171)".

Definition getMemoryColor (percentage : value) : string :=
  if js_lt_number percentage 30 then "linear-gradient(90deg, #22c55e, #34d399)"
  else if js_lt_number percentage 60 then "linear-gradient(90deg, #06b6d4, #22d3ee)"
  else if js_lt_number percentage 80 then "linear-gradient(90deg, #fbbf24, #fcd34d)"
  else "linear-gradient(90deg, #ef4444, #f87171)".

(** ** More runs and hosts for the worked examples *)

(** A host whose process table has a [null] in eleventh position. *)
Definition host_facts_null_eleventh : list (string * value) :=
  ("processes", VObj [("all", VNum 11);
                      ("list", VArr (map a_process (seq 1 10) ++ [VNull]))])
  :: host_facts.

(** A host whose only volume is a pseudo file system of size 0. *)
Definition host_facts_empty_volume : list (string * value) :=
  ("fsSize", VArr [VObj [("fs", VStr "devfs"); ("size", VNum 0); ("used", VNum 0);
                         ("available", VNum 0)]]) :: host_facts.

(** No event of [evs] is a connection. *)
Definition no_connection (evs : list event) : Prop :=
  Forall (fun ev => match ev with Connection _ => False | _ => True end) evs.

(** One viewer connected, no callback pending. *)
Definition one_viewer : state :=
  {| connectedClients := 1; sockets := ["a"]; pending := 0 |}.

(** ** Inversion of completions *)

Lemma bind_Normal {A B : Type} (c : completion A) (k : A -> completion B) (b : B) :
  bind c k = Normal b -> exists a, c = Normal a /\ k a = Normal b.
Proof.
  destruct c as [a|e]; simpl; intros H.
  - exists a. split; [reflexivity | exact H].
  - discriminate H.
Qed.

Lemma await_Normal (p : promise) (v : value) :
  await p = Normal v -> p = Fulfilled v.
Proof. destruct p; simpl; congruence. Qed.

Lemma Promise_all_length ps vs :
  Promise_all ps = Normal vs -> List.length vs = List.length ps.
Proof.
  revert vs. induction ps as [|p ps IH]; simpl; intros vs H.
  - injection H as <-. reflexivity.
  - apply bind_Normal in H. destruct H as (v & _ & H).
    apply bind_Normal in H. destruct H as (vs' & Hvs & H).
    injection H as <-. simpl. now rewrite (IH vs').
Qed.

Lemma properties_cons_Normal k c rest vs :
  properties ((k, c) :: rest) = Normal vs ->
  exists v vs', c = Normal v /\ properties rest = Normal vs' /\ vs = (k, v) :: vs'.
Proof.
  simpl. intros H.
  apply bind_Normal in H. destruct H as (v & Hc & H).
  apply bind_Normal in H. destruct H as (vs' & Hr & H).
  exists v, vs'. repeat split; congruence.
Qed.

Lemma object_Normal inits m :
  object inits = Normal m -> exists vs, properties inits = Normal vs /\ m = VObj vs.
Proof.
  unfold object. intros H.
  apply bind_Normal in H. destruct H as (vs & Hp & H).
  exists vs. split; congruence.
Qed.

Lemma get_field o p v : o.[p] = Normal v -> v = field o p.
Proof. destruct o; simpl; congruence. Qed.

Lemma map_elems_Normal f l ys :
  map_elems f l = Normal ys -> Forall2 (fun x y => f x = Normal y) l ys.
Proof.
  revert ys. induction l as [|x l IH]; simpl; intros ys H.
  - injection H as <-. constructor.
  - apply bind_Normal in H. destruct H as (y & Hy & H).
    apply bind_Normal in H. destruct H as (ys' & Hys & H).
    injection H as <-. constructor; auto.
Qed.

Lemma js_map_Normal a f m :
  js_map a f = Normal m ->
  exists l ys, a = VArr l /\ m = VArr ys /\ Forall2 (fun x y => f x = Normal y) l ys.
Proof.
  destruct a; simpl; try discriminate. intros H.
  apply bind_Normal in H. destruct H as (ys & Hys & H).
  exists elems, ys. repeat split; [congruence | now apply map_elems_Normal].
Qed.

(** One step of inversion on a hypothesis that an evaluation
    completed normally. *)
Ltac invert_normal :=
  match goal with
  | H : Throw _ = Normal _ |- _ => discriminate H
  | H : Normal _ = Normal _ |- _ => injection H as H; try subst
  | H : object _ = Normal _ |- _ =>
      apply object_Normal in H; destruct H as (? & H & ?); try subst
  | H : properties (_ :: _) = Normal _ |- _ =>
      apply properties_cons_Normal in H; destruct H as (? & ? & ? & H & ?); try subst
  | H : properties [] = Normal _ |- _ => simpl in H
  | H : bind _ _ = Normal _ |- _ =>
      apply bind_Normal in H; destruct H as (? & ? & H)
  | H : get _ _ = Normal _ |- _ => apply get_field in H; try subst
  end.

(** ** The shape of what the sampler builds *)

Lemma memory_record_Normal memory m :
  memory_record memory = Normal m ->
  m = VObj [("total", field memory "total"); ("used", field memory "used");
            ("available", field memory "available");
            ("percentage",
              js_mul (js_div (field memory "used") (field memory "total")) (VNum 100))].
Proof.
  unfold memory_record. intros H. repeat invert_normal. reflexivity.
Qed.

Lemma disk_entry_Normal d e :
  disk_entry d = Normal e ->
  e = VObj [("fs", field d "fs"); ("size", field d "size"); ("used", field d "used");
            ("available", field d "available");
            ("percentage", js_mul (js_div (field d "used") (field d "size")) (VNum 100))].
Proof.
  unfold disk_entry. intros H. repeat invert_normal. reflexivity.
Qed.

Lemma network_entry_Normal n e :
  network_entry n = Normal e ->
  e = VObj [("iface", field n "iface");
            ("rx_sec", js_or (field n "rx_sec") (VNum 0));
            ("tx_sec", js_or (field n "tx_sec") (VNum 0))].
Proof.
  unfold network_entry. intros H. repeat invert_normal. reflexivity.
Qed.

Lemma process_entry_Normal p e :
  process_entry p = Normal e -> e = process_summary p.
Proof.
  unfold process_entry. intros H. repeat invert_normal. reflexivity.
Qed.

Lemma cpu_record_Normal cpu currentLoad c :
  cpu_record cpu currentLoad = Normal c ->
  c = VObj [("brand", field cpu "brand"); ("cores", field cpu "cores");
            ("physicalCores", field cpu "physicalCores");
            ("usage", field currentLoad "currentLoad");
            ("speed", field cpu "speed");
            ("temperature", js_or (field currentLoad "currentLoadUser") (VNum 0))].
Proof.
  unfold cpu_record. intros H. repeat invert_normal. reflexivity.
Qed.

Lemma process_entries_Normal l ys :
  Forall2 (fun p e => process_entry p = Normal e) l ys -> ys = map process_summary l.
Proof.
  induction 1 as [|p e l ys Hp _ IH]; simpl.
  - reflexivity.
  - apply process_entry_Normal in Hp. now subst.
Qed.

Lemma processes_record_Normal processes r :
  processes_record processes = Normal r ->
  exists table,
    field processes "list" = VArr table /\
    r = VObj [("all", field processes "all"); ("running", field processes "running");
              ("sleeping", field processes "sleeping");
              ("list", VArr (map process_summary (firstn 10 table)))].
Proof.
  unfold processes_record. intros H. repeat invert_normal.
  match goal with
  | Hs : js_slice0 _ _ = Normal ?top, Hm : js_map ?top _ = Normal _ |- _ =>
      apply js_map_Normal in Hm; destruct Hm as (l & ys & -> & -> & Hall);
      destruct (field processes "list") as [| | | | |table|] eqn:Hl;
      try discriminate Hs; unfold js_slice0 in Hs; injection Hs as <-
  end.
  exists table. split; [reflexivity|].
  now rewrite (process_entries_Normal _ _ Hall).
Qed.

(** A snapshot is an object of eight properties, each built by its
    own literal. *)
Lemma snapshot_Normal now cpu memory disk network currentLoad osInfo system graphics
  processes m :
  snapshot now cpu memory disk network currentLoad osInfo system graphics processes
    = Normal m ->
  exists c me d n dv p g,
    m = VObj [("timestamp", VNum now); ("cpu", c); ("memory", me); ("disk", d);
              ("network", n); ("device", dv); ("processes", p); ("graphics", g)] /\
    cpu_record cpu currentLoad = Normal c /\
    memory_record memory = Normal me /\
    js_map disk disk_entry = Normal d /\
    js_map network network_entry = Normal n /\
    device_record osInfo system = Normal dv /\
    processes_record processes = Normal p.
Proof.
  unfold snapshot. intros H.
  apply object_Normal in H. destruct H as (vs & H & ->).
  do 8 (apply properties_cons_Normal in H; destruct H as (? & ? & ? & H & ->)).
  simpl in H. injection H as <-.
  injection H0 as <-.
  do 7 eexists. repeat split; eassumption.
Qed.

(** The [try] body completes normally only when the nine promises
    were fulfilled, and then with the snapshot of their values. *)
Lemma try_body_Normal si now m :
  try_body si now = Normal m ->
  exists cpu memory disk network currentLoad osInfo system graphics processes,
    (si "cpu" = Fulfilled cpu /\ si "mem" = Fulfilled memory /\
     si "fsSize" = Fulfilled disk /\ si "networkStats" = Fulfilled network /\
     si "currentLoad" = Fulfilled currentLoad /\ si "osInfo" = Fulfilled osInfo /\
     si "system" = Fulfilled system /\ si "graphics" = Fulfilled graphics /\
     si "processes" = Fulfilled processes) /\
    snapshot now cpu memory disk network currentLoad osInfo system graphics processes
      = Normal m.
Proof.
  unfold try_body, queries. simpl map. intros H.
  apply bind_Normal in H. destruct H as (rs & Hall & H).
  simpl in Hall.
  repeat match goal with
         | Hb : bind _ _ = Normal _ |- _ =>
             apply bind_Normal in Hb; destruct Hb as (? & ? & ?)
         | Ha : await _ = Normal _ |- _ => apply await_Normal in Ha
         | Hn : Normal _ = Normal _ |- _ => injection Hn as Hn; subst
         end.
  do 9 eexists. split; [repeat split; eassumption | exact H].
Qed.

(** The sampler returns [null] with one line on the console, or a
    snapshot and nothing on the console. *)
Lemma getSystemMetrics_cases si now :
  (exists e, try_body si now = Throw e /\
     getSystemMetrics si now = (VNull, [ConsoleError "Error getting system metrics:" e])) \/
  (exists m, try_body si now = Normal m /\ getSystemMetrics si now = (m, [])).
Proof.
  unfold getSystemMetrics. destruct (try_body si now) as [m|e].
  - right. exists m. split; reflexivity.
  - left. exists e. split; reflexivity.
Qed.

Lemma getSystemMetrics_snapshot si now m log :
  getSystemMetrics si now = (m, log) -> m <> VNull ->
  try_body si now = Normal m /\ log = [].
Proof.
  intros H Hm.
  destruct (getSystemMetrics_cases si now) as [(e & _ & He) | (m' & Hb & Hm')];
    rewrite H in *.
  - injection He as -> _. contradiction.
  - injection Hm' as -> ->. split; [exact Hb | reflexivity].
Qed.

(** ** Properties of the sampler *)

Lemma disk_entries_percentage l ys :
  Forall2 (fun d e => disk_entry d = Normal e) l ys ->
  Forall (fun e =>
    field e "percentage"
      = VNum (ToNumber (field e "used") / ToNumber (field e "size") * 100)%float) ys.
Proof.
  induction 1 as [|d e l ys Hd _ IH]; constructor; [|exact IH].
  apply disk_entry_Normal in Hd. subst e. reflexivity.
Qed.

(** C1: in every snapshot the sampler returns, the memory record's
    [percentage] is [used / total * 100] computed, in binary64
    arithmetic, from the [used] and [total] stored in that same
    record, and the [percentage] of every entry of [disk] is that
    entry's [used / size * 100].  The equality is exact and holds for
    every response of the collaborator, in particular when [total]
    and [size] are positive. *)
Theorem percentages_are_derived si now m log :
  getSystemMetrics si now = (m, log) -> m <> VNull ->
  field (field m "memory") "percentage"
    = VNum (ToNumber (field (field m "memory") "used")
            / ToNumber (field (field m "memory") "total") * 100)%float /\
  exists volumes,
    field m "disk" = VArr volumes /\
    Forall (fun e =>
      field e "percentage"
        = VNum (ToNumber (field e "used") / ToNumber (field e "size") * 100)%float)
      volumes.
Proof.
  intros H Hm.
  apply getSystemMetrics_snapshot in H; [|exact Hm]. destruct H as [H _].
  apply try_body_Normal in H.
  destruct H as (cpu & memory & disk & network & currentLoad & osInfo & system
                 & graphics & processes & _ & H).
  apply snapshot_Normal in H.
  destruct H as (c & me & d & n & dv & p & g & -> & _ & Hme & Hd & _).
  apply memory_record_Normal in Hme. subst me.
  apply js_map_Normal in Hd. destruct Hd as (l & ys & _ & -> & Hall).
  split; [reflexivity|].
  exists ys. split; [reflexivity|].
  exact (disk_entries_percentage _ _ Hall).
Qed.

(** C4: in every snapshot the sampler returns, the process list has
    at most 10 entries, exactly [min 10 n] of them for a process table
    of [n] entries, and its [i]-th entry is the summary ([pid], [name],
    [cpu], [mem]) of the [i]-th entry of the table the collaborator
    returned: the first entries, in the collaborator's order, with no
    sorting. *)
Theorem process_list_is_first_ten si now m log :
  getSystemMetrics si now = (m, log) -> m <> VNull ->
  exists processes table top,
    si "processes" = Fulfilled processes /\
    field processes "list" = VArr table /\
    field (field m "processes") "list" = VArr top /\
    top = map process_summary (firstn 10 table) /\
    (List.length top <= 10)%nat /\
    List.length top = Nat.min 10 (List.length table) /\
    forall i, (i < 10)%nat ->
      nth_error top i = option_map process_summary (nth_error table i).
Proof.
  intros H Hm.
  apply getSystemMetrics_snapshot in H; [|exact Hm]. destruct H as [H _].
  apply try_body_Normal in H.
  destruct H as (cpu & memory & disk & network & currentLoad & osInfo & system
                 & graphics & processes & Hsi & H).
  apply snapshot_Normal in H.
  destruct H as (c & me & d & n & dv & p & g & -> & _ & _ & _ & _ & _ & Hp).
  apply processes_record_Normal in Hp. destruct Hp as (table & Htable & ->).
  exists processes, table, (map process_summary (firstn 10 table)).
  split; [apply Hsi|].
  split; [exact Htable|].
  split; [reflexivity|].
  split; [reflexivity|].
  rewrite length_map, length_firstn.
  split; [apply Nat.le_min_l|].
  split; [reflexivity|].
  intros i Hi.
  rewrite nth_error_map, nth_error_firstn.
  apply Nat.ltb_lt in Hi. now rewrite Hi.
Qed.

Lemma network_entries_rates l ys :
  Forall2 (fun n e => network_entry n = Normal e) l ys ->
  Forall2 (fun n e =>
    field e "rx_sec" = js_or (field n "rx_sec") (VNum 0) /\
    field e "tx_sec" = js_or (field n "tx_sec") (VNum 0)) l ys.
Proof.
  induction 1 as [|n e l ys Hn _ IH]; constructor; [|exact IH].
  apply network_entry_Normal in Hn. subst e. split; reflexivity.
Qed.

(** [v || 0] is a number greater than or equal to 0 when [v] is falsy
    or is itself such a number. *)
Lemma js_or_zero_nonneg v :
  ToBoolean v = false \/ nonneg_number v = true ->
  nonneg_number (js_or v (VNum 0)) = true.
Proof.
  unfold js_or. intros [Hf | Hn].
  - rewrite Hf. reflexivity.
  - destruct (ToBoolean v); [exact Hn | reflexivity].
Qed.

(** C8, as amended: in every snapshot the sampler returns, the [rx_sec]
    and [tx_sec] of every entry of [network] are the collaborator's
    values when these are truthy, and 0 otherwise.  So a rate is a
    number greater than or equal to 0 whenever the collaborator
    reports a falsy value ([null], [undefined], [NaN], zero) or a
    number greater than or equal to 0. *)
Theorem network_rates_default_to_zero si now m log :
  getSystemMetrics si now = (m, log) -> m <> VNull ->
  exists ifaces entries,
    si "networkStats" = Fulfilled (VArr ifaces) /\
    field m "network" = VArr entries /\
    Forall2 (fun n e =>
      (field e "rx_sec" = js_or (field n "rx_sec") (VNum 0) /\
       field e "tx_sec" = js_or (field n "tx_sec") (VNum 0)) /\
      (ToBoolean (field n "rx_sec") = false \/ nonneg_number (field n "rx_sec") = true ->
       nonneg_number (field e "rx_sec") = true) /\
      (ToBoolean (field n "tx_sec") = false \/ nonneg_number (field n "tx_sec") = true ->
       nonneg_number (field e "tx_sec") = true)) ifaces entries.
Proof.
  intros H Hm.
  apply getSystemMetrics_snapshot in H; [|exact Hm]. destruct H as [H _].
  apply try_body_Normal in H.
  destruct H as (cpu & memory & disk & network & currentLoad & osInfo & system
                 & graphics & processes & Hsi & H).
  apply snapshot_Normal in H.
  destruct H as (c & me & d & n & dv & p & g & -> & _ & _ & _ & Hn & _).
  apply js_map_Normal in Hn. destruct Hn as (l & ys & -> & -> & Hall).
  exists l, ys.
  split; [apply Hsi|].
  split; [reflexivity|].
  apply network_entries_rates in Hall.
  revert Hall. apply Forall2_impl. intros n e [Hrx Htx].
  split; [split; assumption|].
  split; intros Hv.
  - rewrite Hrx. now apply js_or_zero_nonneg.
  - rewrite Htx. now apply js_or_zero_nonneg.
Qed.

Lemma properties_timestamp now rest :
  properties (("timestamp", Normal (VNum now)) :: rest)
  = (vs <- properties rest ;; Normal (("timestamp", VNum now) :: vs)).
Proof. reflexivity. Qed.

(** The clock reaches the snapshot through its first property only. *)
Lemma try_body_clock si :
  (exists e, forall now, try_body si now = Throw e) \/
  (exists rest, forall now,
     try_body si now = Normal (VObj (("timestamp", VNum now) :: rest))).
Proof.
  unfold try_body.
  destruct (Promise_all (map si queries)) as [rs|e]; simpl bind;
    [|left; exists e; reflexivity].
  do 9 (destruct rs as [|? rs]; [left; exists TypeError; reflexivity|]).
  destruct rs; [|left; exists TypeError; reflexivity].
  unfold snapshot, object.
  match goal with
  | |- context [properties (_ :: ?l)] =>
      destruct (properties l) as [vs|e] eqn:Hrest
  end.
  - right. exists vs. intros now.
    rewrite properties_timestamp, Hrest. reflexivity.
  - left. exists e. intros now.
    rewrite properties_timestamp, Hrest. reflexivity.
Qed.

Lemma try_body_facts si1 si2 now :
  (forall q, In q queries -> si1 q = si2 q) -> try_body si1 now = try_body si2 now.
Proof.
  intros Hagree. unfold try_body.
  now rewrite (map_ext_in si1 si2 queries Hagree).
Qed.

(** C7: the sampler's result is decided by the nine responses and the
    clock, and the clock reaches the timestamp only.  For two calls
    whose collaborators answer the nine queries alike, at any two
    clock readings: if one returns [null] so does the other, each
    after one [console.error]; and if one returns a snapshot, so does
    the other, and the two snapshots have the same properties with the
    same values in the same order, except the first, [timestamp],
    which holds the reading of each call and occurs only there. *)
Theorem sampler_depends_on_facts_and_clock_only si1 si2 now1 now2 :
  (forall q, In q queries -> si1 q = si2 q) ->
  (forall e1,
     getSystemMetrics si1 now1
       = (VNull, [ConsoleError "Error getting system metrics:" e1]) ->
     exists e2,
       getSystemMetrics si2 now2
       = (VNull, [ConsoleError "Error getting system metrics:" e2])) /\
  (forall m1 log1,
     getSystemMetrics si1 now1 = (m1, log1) -> m1 <> VNull ->
     exists rest,
       m1 = VObj (("timestamp", VNum now1) :: rest) /\
       getSystemMetrics si2 now2 = (VObj (("timestamp", VNum now2) :: rest), []) /\
       ~ In "timestamp" (map fst rest)).
Proof.
  intros Hagree. split.
  - intros e1 H1.
    destruct (try_body_clock si2) as [(e & He) | (rest & Hr)].
    + exists e. unfold getSystemMetrics. now rewrite He.
    + exfalso. unfold getSystemMetrics in H1.
      rewrite (try_body_facts si1 si2 now1 Hagree), Hr in H1. discriminate H1.
  - intros m1 log1 H1 Hm1.
    apply getSystemMetrics_snapshot in H1; [|exact Hm1]. destruct H1 as [Hb _].
    pose proof Hb as Hshape. apply try_body_Normal in Hshape.
    destruct Hshape as (cpu & memory & disk & network & currentLoad & osInfo & system
                        & graphics & processes & _ & Hshape).
    apply snapshot_Normal in Hshape.
    destruct Hshape as (c & me & d & n & dv & p & g & -> & _).
    exists [("cpu", c); ("memory", me); ("disk", d); ("network", n); ("device", dv);
            ("processes", p); ("graphics", g)].
    split; [reflexivity|]. split.
    + rewrite (try_body_facts si1 si2 now1 Hagree) in Hb.
      destruct (try_body_clock si2) as [(e & He) | (rest & Hr)].
      * rewrite He in Hb. discriminate Hb.
      * rewrite Hr in Hb. injection Hb as <-.
        unfold getSystemMetrics. now rewrite Hr.
    + simpl. intros Hin.
      repeat (destruct Hin as [Hin | Hin]; [discriminate Hin|]). exact Hin.
Qed.

Lemma Promise_all_rejected (si : string -> promise) (qs : list string) q r :
  In q qs -> si q = Rejected r ->
  exists r', Promise_all (map si qs) = Throw (Reason r').
Proof.
  induction qs as [|q0 qs IH]; simpl; intros Hin Hq; [contradiction|].
  destruct (si q0) as [v|r0] eqn:Hq0; simpl.
  - destruct Hin as [-> | Hin]; [congruence|].
    destruct (IH Hin Hq) as (r' & ->). exists r'. reflexivity.
  - exists r0. reflexivity.
Qed.

Lemma sampler_fails_as_a_unit si now q r :
  In q queries -> si q = Rejected r ->
  exists r', getSystemMetrics si now
             = (VNull, [ConsoleError "Error getting system metrics:" (Reason r')]).
Proof.
  intros Hin Hq. unfold getSystemMetrics, try_body.
  destruct (Promise_all_rejected si queries q r Hin Hq) as (r' & ->).
  exists r'. reflexivity.
Qed.

(** ** Properties of the broadcast server *)

Lemma emissions_app out1 out2 :
  emissions (out1 ++ out2) = emissions out1 ++ emissions out2.
Proof. apply filter_app. Qed.

Lemma emissions_io_emit st ev m : emissions (io_emit st ev m) = io_emit st ev m.
Proof.
  unfold io_emit, emissions.
  induction (sockets st) as [|s l IH]; simpl; [reflexivity | now rewrite IH].
Qed.

Lemma calls_app out1 out2 : calls (out1 ++ out2) = calls out1 ++ calls out2.
Proof. apply flat_map_app. Qed.

Lemma calls_io_emit st ev m : calls (io_emit st ev m) = [].
Proof.
  unfold io_emit, calls.
  induction (sockets st) as [|s l IH]; simpl; [reflexivity | exact IH].
Qed.

Lemma calls_queries (qs : list string) : calls (map Called qs) = qs.
Proof.
  unfold calls. induction qs as [|q qs IH]; simpl; [reflexivity | now rewrite IH].
Qed.

Lemma emissions_queries (qs : list string) : emissions (map Called qs) = [].
Proof.
  unfold emissions. induction qs as [|q qs IH]; simpl; [reflexivity | exact IH].
Qed.

(** A snapshot is truthy, and [null] is not. *)
Lemma try_body_truthy si now m : try_body si now = Normal m -> ToBoolean m = true.
Proof.
  intros H. destruct (try_body_clock si) as [(e & He) | (rest & Hr)].
  - rewrite He in H. discriminate.
  - rewrite Hr in H. injection H as <-. reflexivity.
Qed.

(** Every push of a step carries the snapshot sampled at that step,
    once for each socket of the registry. *)
Lemma step_emissions st ev :
  emissions (snd (step st ev))
  = flat_map (fun m => io_emit st "systemMetrics" m) (sampled st ev).
Proof.
  destruct ev as [s|s| |si now| ]; simpl.
  - reflexivity.
  - unfold on_disconnect. destruct (connected s st); reflexivity.
  - unfold on_tick. destruct (0 <? connectedClients st)%Z; simpl; [|reflexivity].
    reflexivity.
  - unfold on_settled, sampled. destruct (pending st) as [|k]; [reflexivity|].
    destruct (getSystemMetrics_cases si now) as [(e & _ & ->) | (m & Hb & ->)]; simpl.
    + reflexivity.
    + rewrite (try_body_truthy _ _ _ Hb). simpl.
      now rewrite emissions_io_emit, app_nil_r.
  - reflexivity.
Qed.

(** The collaborator is invoked on a tick that finds a positive
    counter, and at no other event. *)
Lemma step_calls st ev :
  calls (snd (step st ev))
  = match ev with
    | Tick => if (0 <? connectedClients st)%Z then queries else []
    | _ => []
    end.
Proof.
  destruct ev as [s|s| |si now| ]; simpl.
  - reflexivity.
  - unfold on_disconnect. destruct (connected s st); reflexivity.
  - unfold on_tick. destruct (0 <? connectedClients st)%Z; [|reflexivity].
    apply calls_queries.
  - unfold on_settled. destruct (pending st) as [|k]; [reflexivity|].
    destruct (getSystemMetrics_cases si now) as [(e & _ & ->) | (m & Hb & ->)]; simpl.
    + reflexivity.
    + destruct (ToBoolean m); [apply calls_io_emit | reflexivity].
  - reflexivity.
Qed.

Lemma run_cons st ev evs :
  run st (ev :: evs)
  = (fst (run (fst (step st ev)) evs),
     snd (step st ev) ++ snd (run (fst (step st ev)) evs)).
Proof.
  simpl. destruct (step st ev) as [st1 out1]. simpl.
  destruct (run st1 evs) as [st2 out2]. reflexivity.
Qed.

Lemma received_emissions s out : received s (emissions out) = received s out.
Proof.
  unfold received, emissions.
  induction out as [|e out IH]; simpl; [reflexivity|].
  destruct e; simpl; rewrite ?IH; reflexivity.
Qed.

Lemma received_app s out1 out2 :
  received s (out1 ++ out2) = received s out1 ++ received s out2.
Proof. apply flat_map_app. Qed.

Lemma existsb_eqb_In s (l : list socket) :
  existsb (String.eqb s) l = true <-> In s l.
Proof.
  rewrite existsb_exists. split.
  - intros (x & Hin & Heq). apply String.eqb_eq in Heq. now subst.
  - intros Hin. exists s. split; [exact Hin | apply String.eqb_refl].
Qed.

(** A push to a registry without duplicates reaches every connected
    viewer once, and nobody else. *)
Lemma received_push s m (l : list socket) :
  NoDup l ->
  received s (map (fun s' => Emitted s' "systemMetrics" m) l)
  = if existsb (String.eqb s) l then [m] else [].
Proof.
  induction 1 as [|x l Hx Hl IH]; simpl; [reflexivity|].
  fold (received s (map (fun s' => Emitted s' "systemMetrics" m) l)).
  rewrite IH, (String.eqb_sym s x).
  destruct (String.eqb x s) eqn:Hxs; simpl; [|reflexivity].
  apply String.eqb_eq in Hxs. subst x.
  destruct (existsb (String.eqb s) l) eqn:Hin; [|reflexivity].
  apply existsb_eqb_In in Hin. contradiction.
Qed.

Lemma remove_first_In s x l : In x (remove_first s l) -> In x l.
Proof.
  induction l as [|y l IH]; simpl; [auto|].
  destruct (String.eqb y s); simpl; intuition.
Qed.

Lemma remove_first_NoDup s l : NoDup l -> NoDup (remove_first s l).
Proof.
  induction 1 as [|y l Hy Hl IH]; simpl; [constructor|].
  destruct (String.eqb y s); [exact Hl|].
  constructor; [|exact IH].
  intros Hin. apply Hy. now apply remove_first_In in Hin.
Qed.

(** With fresh connections the registry never holds a socket twice. *)
Lemma registry_has_no_duplicates evs :
  forall st, NoDup (sockets st) -> fresh_connections st evs ->
  NoDup (sockets (fst (run st evs))).
Proof.
  induction evs as [|ev evs IH]; intros st Hnd Hfresh; [exact Hnd|].
  rewrite run_cons. simpl fst. destruct Hfresh as [Hev Hfresh].
  apply IH; [|exact Hfresh].
  destruct ev as [s|s| |si now| ]; simpl.
  - apply NoDup_app; [exact Hnd | repeat constructor; simpl; tauto |].
    intros x Hx [<- | []].
    apply existsb_eqb_In in Hx. unfold connected in Hev. congruence.
  - unfold on_disconnect. destruct (connected s st); simpl; [|exact Hnd].
    now apply remove_first_NoDup.
  - unfold on_tick. destruct (0 <? connectedClients st)%Z; exact Hnd.
  - unfold on_settled. destruct (pending st); [exact Hnd|].
    destruct (getSystemMetrics si now). exact Hnd.
  - exact Hnd.
Qed.

(** C2: when one of the nine promises of the collaborator is rejected,
    the sampler returns [null] and nothing else (the only trace is one
    [console.error]), so the throw stops at the sampler; and the
    callback resumed with that outcome pushes no event and leaves the
    counter and the registry as they were, for the ticks to come. *)
Theorem failed_query_fails_the_sample si now q r :
  In q queries -> si q = Rejected r ->
  (exists r',
     getSystemMetrics si now
     = (VNull, [ConsoleError "Error getting system metrics:" (Reason r')])) /\
  forall st,
    sampled st (Settled si now) = [] /\
    emissions (snd (step st (Settled si now))) = [] /\
    connectedClients (fst (step st (Settled si now))) = connectedClients st /\
    sockets (fst (step st (Settled si now))) = sockets st.
Proof.
  intros Hin Hq.
  destruct (sampler_fails_as_a_unit si now q r Hin Hq) as (r' & Hnull).
  split; [exists r'; exact Hnull|].
  intros st.
  assert (Hs : sampled st (Settled si now) = []).
  { unfold sampled. destruct (pending st); [reflexivity|]. now rewrite Hnull. }
  split; [exact Hs|].
  split; [now rewrite step_emissions, Hs|].
  simpl. unfold on_settled. destruct (pending st); [split; reflexivity|].
  rewrite Hnull. split; reflexivity.
Qed.

(** C3: a tick that finds the counter at 0 does nothing: the state is
    unchanged (no callback is left pending), no function of the
    collaborator is invoked and no event is pushed. *)
Theorem idle_tick_is_skipped st :
  connectedClients st = 0%Z ->
  step st Tick = (st, []) /\
  calls (snd (step st Tick)) = [] /\
  emissions (snd (step st Tick)) = [] /\
  sampled st Tick = [].
Proof.
  intros H0. simpl. unfold on_tick. rewrite H0. simpl.
  repeat split; reflexivity.
Qed.

Lemma remove_first_length s l :
  existsb (String.eqb s) l = true ->
  S (List.length (remove_first s l)) = List.length l.
Proof.
  induction l as [|x l IH]; simpl; intros H; [discriminate|].
  rewrite (String.eqb_sym s x) in H.
  destruct (String.eqb x s); simpl in *; [reflexivity|].
  now rewrite IH.
Qed.

Lemma step_counter_matches st ev :
  counter_matches st -> counter_matches (fst (step st ev)).
Proof.
  unfold counter_matches. intros H.
  destruct ev as [s|s| |si now| ]; simpl.
  - rewrite length_app. simpl. lia.
  - unfold on_disconnect, connected.
    destruct (existsb (String.eqb s) (sockets st)) eqn:Hc; simpl; [|exact H].
    apply remove_first_length in Hc. unfold socket in *. lia.
  - unfold on_tick. destruct (0 <? connectedClients st)%Z; exact H.
  - unfold on_settled. destruct (pending st); [exact H|].
    destruct (getSystemMetrics si now). exact H.
  - exact H.
Qed.

Lemma run_counter_matches evs :
  forall st, counter_matches st -> counter_matches (fst (run st evs)).
Proof.
  induction evs as [|ev evs IH]; intros st H; [exact H|].
  rewrite run_cons. simpl. apply IH. now apply step_counter_matches.
Qed.

(** C5: the counter starts at 0; a connection adds 1 to it and the
    disconnection of a connected viewer subtracts 1; [GET /health]
    answers with status ["OK"] and the current counter and changes
    nothing; the answers are 0 before any connection, 1 after one and
    0 again after that viewer left; and in every state the server
    reaches from its start the counter is the number of connected
    viewers, hence a non-negative integer. *)
Theorem viewer_counter_and_health :
  connectedClients init = 0%Z /\
  (forall st s,
     connectedClients (fst (step st (Connection s))) = (connectedClients st + 1)%Z) /\
  (forall st s, connected s st = true ->
     connectedClients (fst (step st (Disconnect s))) = (connectedClients st - 1)%Z) /\
  (forall st,
     step st GetHealth = (st, [Responded (health_body (connectedClients st))])) /\
  (forall s,
     snd (run init [GetHealth; Connection s; GetHealth; Disconnect s; GetHealth])
     = [Responded (VObj [("status", VStr "OK"); ("connectedClients", VNum 0)]);
        ConsoleLog "Client connected. Total: " 1;
        Responded (VObj [("status", VStr "OK"); ("connectedClients", VNum 1)]);
        ConsoleLog "Client disconnected. Total: " 0;
        Responded (VObj [("status", VStr "OK"); ("connectedClients", VNum 0)])]) /\
  (forall evs,
     connectedClients (fst (run init evs))
       = Z.of_nat (List.length (sockets (fst (run init evs)))) /\
     (0 <= connectedClients (fst (run init evs)))%Z).
Proof.
  split; [reflexivity|].
  split; [reflexivity|].
  split.
  { intros st s Hc. simpl. unfold on_disconnect. now rewrite Hc. }
  split; [reflexivity|].
  split.
  { intros s. simpl. unfold on_disconnect, connected. simpl.
    rewrite String.eqb_refl. simpl. reflexivity. }
  intros evs.
  assert (H : counter_matches (fst (run init evs))).
  { apply run_counter_matches. reflexivity. }
  unfold counter_matches in H. split; [exact H | lia].
Qed.

(** Callbacks resumed and callbacks still pending add up to the
    callbacks suspended before and the ticks that found a positive
    counter. *)
Lemma pending_accounting evs :
  forall st,
    (resumed st evs + pending (fst (run st evs))
     = pending st + sampling_ticks st evs)%nat.
Proof.
  induction evs as [|ev evs IH]; intros st.
  - simpl. lia.
  - rewrite run_cons. simpl fst. specialize (IH (fst (step st ev))). revert IH.
    destruct ev as [s|s| |si now| ]; simpl.
    + lia.
    + unfold on_disconnect. destruct (connected s st); simpl; lia.
    + unfold on_tick. destruct (0 <? connectedClients st)%Z; simpl; lia.
    + unfold on_settled. destruct (pending st) as [|k] eqn:Hp; simpl.
      * rewrite Hp. lia.
      * destruct (getSystemMetrics si now). simpl. lia.
    + lia.
Qed.

(** C6: the pushes of a step are exactly one [systemMetrics] event
    for each socket of the registry, all with the snapshot sampled at
    that step, and none when no snapshot is sampled, which happens
    only when a pending timer callback resumes with a snapshot; a tick
    that finds the counter at 1 or more, resumed with a snapshot,
    invokes the nine functions and pushes that snapshot once to each
    socket; every connected viewer receives the sampled snapshot once
    and nobody else receives anything; and along a run from the start
    every resumed callback is the callback of a tick that found a
    positive counter. *)
Theorem broadcast_once_per_sampled_snapshot :
  (forall st ev,
     emissions (snd (step st ev))
     = flat_map (fun m => map (fun s => Emitted s "systemMetrics" m) (sockets st))
         (sampled st ev)) /\
  (forall st ev m, In m (sampled st ev) ->
     exists si now,
       ev = Settled si now /\ pending st <> O /\ sampled st ev = [m] /\
       getSystemMetrics si now = (m, []) /\ m <> VNull) /\
  (forall st si now m,
     (1 <= connectedClients st)%Z ->
     getSystemMetrics si now = (m, []) -> m <> VNull ->
     calls (snd (run st [Tick; Settled si now])) = queries /\
     emissions (snd (run st [Tick; Settled si now]))
     = map (fun s => Emitted s "systemMetrics" m) (sockets st) /\
     pending (fst (run st [Tick; Settled si now])) = pending st) /\
  (forall st ev s, NoDup (sockets st) ->
     received s (snd (step st ev)) = if connected s st then sampled st ev else []) /\
  (forall evs,
     (resumed init evs + pending (fst (run init evs)) = sampling_ticks init evs)%nat).
Proof.
  split; [exact step_emissions|].
  split.
  { intros st ev m Hin. unfold sampled in *.
    destruct ev as [s|s| |si now| ]; try contradiction.
    destruct (pending st) as [|k] eqn:Hp; [contradiction|].
    exists si, now. split; [reflexivity|]. split; [discriminate|].
    destruct (getSystemMetrics_cases si now) as [(e & _ & Hg) | (m' & Hb & Hg)];
      rewrite Hg in *; simpl in *; [contradiction|].
    rewrite (try_body_truthy _ _ _ Hb) in *.
    destruct Hin as [<- | []].
    split; [reflexivity|]. split; [reflexivity|].
    intros ->. apply try_body_truthy in Hb. discriminate. }
  split.
  { intros st si now m Hc Hg Hm.
    assert (Hb : try_body si now = Normal m).
    { now apply (getSystemMetrics_snapshot si now m []). }
    assert (Hpos : (0 <? connectedClients st)%Z = true) by (apply Z.ltb_lt; lia).
    simpl run. unfold on_tick. rewrite Hpos. unfold on_settled. simpl pending.
    rewrite Hg, (try_body_truthy _ _ _ Hb).
    cbn [snd fst connectedClients sockets pending].
    rewrite !app_nil_r, app_nil_l.
    rewrite calls_app, emissions_app, calls_queries, emissions_queries,
      calls_io_emit, emissions_io_emit, app_nil_r.
    split; [reflexivity|]. split; reflexivity. }
  split.
  { intros st ev s Hnd.
    rewrite <- received_emissions, step_emissions.
    assert (Hs : sampled st ev = [] \/ exists m, sampled st ev = [m]).
    { unfold sampled. destruct ev; auto. destruct (pending st); auto.
      destruct (ToBoolean (fst (getSystemMetrics si now))); eauto. }
    destruct Hs as [-> | (m & ->)]; simpl.
    - now destruct (connected s st).
    - rewrite app_nil_r. unfold io_emit. now rewrite received_push. }
  intros evs. rewrite (pending_accounting evs init). reflexivity.
Qed.

Lemma sampled_timestamp st ev m :
  In m (sampled st ev) ->
  exists si now, ev = Settled si now /\ field m "timestamp" = VNum now.
Proof.
  unfold sampled. destruct ev as [s|s| |si now| ]; try contradiction.
  destruct (pending st); [contradiction|].
  unfold getSystemMetrics.
  destruct (try_body_clock si) as [(e & He) | (rest & Hr)].
  - rewrite He. simpl. contradiction.
  - rewrite Hr. simpl. intros [<- | []]. exists si, now. split; reflexivity.
Qed.

Lemma snapshots_timestamps evs :
  forall st m, In m (snapshots st evs) ->
  exists now, In now (readings evs) /\ field m "timestamp" = VNum now.
Proof.
  induction evs as [|ev evs IH]; simpl; intros st m Hin; [contradiction|].
  apply in_app_or in Hin. destruct Hin as [Hin | Hin].
  - apply sampled_timestamp in Hin. destruct Hin as (si & now & -> & Ht).
    exists now. split; [left; reflexivity | exact Ht].
  - apply IH in Hin. destruct Hin as (now & Hnow & Ht).
    exists now. split; [|exact Ht].
    destruct ev; simpl; auto.
Qed.

Lemma captures_snapshots tl :
  forall st, map c_snapshot (captures st tl) = snapshots st (events tl).
Proof.
  induction tl as [|[ev k] tl IH]; intros st; [reflexivity|].
  simpl. rewrite map_app, IH. f_equal.
  unfold captured. destruct ev; try reflexivity.
  rewrite map_map. simpl. apply map_id.
Qed.

Lemma captures_timestamps tl :
  forall st,
    Forall (fun c => field (c_snapshot c) "timestamp" = VNum (c_reading c))
      (captures st tl).
Proof.
  induction tl as [|[ev k] tl IH]; intros st; simpl; [constructor|].
  apply Forall_app. split; [|apply IH].
  unfold captured. destruct ev as [s|s| |si now| ]; try constructor.
  apply Forall_forall. intros c Hc. apply in_map_iff in Hc.
  destruct Hc as (m & <- & Hm). simpl.
  apply sampled_timestamp in Hm. destruct Hm as (si' & now' & Hev & Ht).
  injection Hev as _ <-. exact Ht.
Qed.

(** In a list of captures built in the order of their ticks, at
    readings that never decrease, the capture of the later tick has
    the later reading. *)
Lemma later_tick_later_reading (l : list capture) :
  clock_nondecreasing (map c_reading l) ->
  StronglySorted lt (map c_tick l) ->
  forall c1 c2, In c1 l -> In c2 l -> (c_tick c1 < c_tick c2)%nat ->
    PrimFloat.leb (c_reading c1) (c_reading c2) = true.
Proof.
  unfold clock_nondecreasing.
  induction l as [|c l IH]; simpl; intros Hclock Hticks c1 c2 H1 H2 Hlt;
    [contradiction|].
  apply StronglySorted_inv in Hclock. destruct Hclock as [Hclock Hc].
  apply StronglySorted_inv in Hticks. destruct Hticks as [Hticks Ht].
  rewrite Forall_forall in Hc, Ht.
  destruct H1 as [<- | H1], H2 as [<- | H2].
  - lia.
  - apply Hc. now apply in_map.
  - pose proof (Ht (c_tick c1) (in_map c_tick l c1 H1)). lia.
  - now apply (IH Hclock Hticks c1 c2).
Qed.

(** *** The tags and the pending callbacks *)

Lemma remove_length_NoDup (k : nat) (l : list nat) :
  NoDup l -> In k l -> S (List.length (List.remove Nat.eq_dec k l)) = List.length l.
Proof.
  induction 1 as [|x l Hx Hl IH]; simpl; intros Hin; [contradiction|].
  destruct (Nat.eq_dec k x) as [<- | Hne].
  - now rewrite notin_remove.
  - destruct Hin as [-> | Hin]; [contradiction|]. simpl. now rewrite IH.
Qed.

Lemma remove_NoDup (k : nat) (l : list nat) :
  NoDup l -> NoDup (List.remove Nat.eq_dec k l).
Proof.
  induction 1 as [|x l Hx Hl IH]; simpl; [constructor|].
  destruct (Nat.eq_dec k x); [exact IH|].
  constructor; [|exact IH].
  intros Hin. apply in_remove in Hin. now destruct Hin.
Qed.

(** In a well tagged timeline that starts with as many callbacks
    pending as ticks are listed as suspended, every settlement
    resumes a pending callback. *)
Lemma well_tagged_resumes tl :
  forall fired suspended st,
    NoDup suspended -> Forall (fun k => (k < fired)%nat) suspended ->
    List.length suspended = pending st ->
    well_tagged fired suspended st tl = true ->
    resumed st (events tl) = List.length (readings (events tl)).
Proof.
  induction tl as [|[ev k] tl IH]; intros fired suspended st Hnd Hlt Hlen Hwt;
    [reflexivity|].
  simpl in Hwt. simpl events. simpl resumed. simpl readings.
  destruct ev as [s|s| |si now| ].
  - rewrite (IH fired suspended _ Hnd Hlt); [reflexivity | exact Hlen | exact Hwt].
  - rewrite (IH fired suspended _ Hnd Hlt); [reflexivity | | exact Hwt].
    simpl. unfold on_disconnect. now destruct (connected s st).
  - simpl in Hwt |- *. unfold on_tick in *.
    destruct (0 <? connectedClients st)%Z.
    + apply (IH (S fired) (suspended ++ [fired])); [| | |exact Hwt].
      * apply NoDup_app; [exact Hnd | repeat constructor; simpl; tauto |].
        intros x Hx [<- | []]. rewrite Forall_forall in Hlt.
        specialize (Hlt _ Hx). lia.
      * apply Forall_app. split; [|repeat constructor].
        revert Hlt. apply Forall_impl. intros; lia.
      * rewrite length_app. simpl. lia.
    + apply (IH (S fired) suspended); [exact Hnd | | exact Hlen | exact Hwt].
      revert Hlt. apply Forall_impl. intros; lia.
  - apply andb_prop in Hwt. destruct Hwt as [Hk Hwt].
    apply existsb_exists in Hk. destruct Hk as (k' & Hin & Heq).
    apply Nat.eqb_eq in Heq. subst k'.
    pose proof (remove_length_NoDup k suspended Hnd Hin) as Hrem.
    assert (Hp : pending (fst (step st (Settled si now))) = Nat.pred (pending st)).
    { simpl. unfold on_settled. destruct (pending st) eqn:Hq.
      - simpl. now rewrite Hq.
      - now destruct (getSystemMetrics si now). }
    destruct (pending st) as [|n] eqn:Hpending; [lia|].
    cbn [List.length Nat.add]. f_equal.
    apply (IH fired (List.remove Nat.eq_dec k suspended)); [| | |exact Hwt].
    + now apply remove_NoDup.
    + apply Forall_forall. intros x Hx. apply in_remove in Hx.
      rewrite Forall_forall in Hlt. now apply Hlt.
    + rewrite Hp. simpl. lia.
  - rewrite (IH fired suspended _ Hnd Hlt); [reflexivity | exact Hlen | exact Hwt].
Qed.

(** C9, as amended: the timestamp of every snapshot is the reading
    [Date.now()] gave when the snapshot was built (the clock is not
    read for a sample that fails on a rejected promise).  So along a
    run in which these readings never decrease and the samples
    complete in the order of their ticks, the snapshot of a later tick
    never has a smaller timestamp than the snapshot of an earlier
    tick. *)
Theorem capturedAt_is_the_clock_reading st tl :
  map c_snapshot (captures st tl) = snapshots st (events tl) /\
  Forall (fun c => field (c_snapshot c) "timestamp" = VNum (c_reading c))
    (captures st tl) /\
  (clock_nondecreasing (map c_reading (captures st tl)) ->
   StronglySorted lt (map c_tick (captures st tl)) ->
   forall c1 c2, In c1 (captures st tl) -> In c2 (captures st tl) ->
     (c_tick c1 < c_tick c2)%nat ->
     timestamp_le (c_snapshot c1) (c_snapshot c2)).
Proof.
  split; [apply captures_snapshots|].
  split; [apply captures_timestamps|].
  intros Hclock Hticks c1 c2 H1 H2 Hlt.
  pose proof (captures_timestamps tl st) as Hts. rewrite Forall_forall in Hts.
  unfold timestamp_le. rewrite (Hts c1 H1), (Hts c2 H2).
  exact (later_tick_later_reading _ Hclock Hticks c1 c2 H1 H2 Hlt).
Qed.

(** C10: in every snapshot the sampler returns, [cpu.temperature] is
    the [currentLoadUser] of the collaborator's load report when that
    value is truthy and 0 otherwise; and the only functions of the
    collaborator the server ever invokes are the nine of [queries],
    none of which is a temperature query. *)
Theorem temperature_is_user_load si now m log :
  getSystemMetrics si now = (m, log) -> m <> VNull ->
  (exists currentLoad,
     si "currentLoad" = Fulfilled currentLoad /\
     field (field m "cpu") "temperature"
     = if ToBoolean (field currentLoad "currentLoadUser")
       then field currentLoad "currentLoadUser"
       else VNum 0) /\
  (forall st ev fn, In fn (calls (snd (step st ev))) -> In fn queries) /\
  ~ In "cpuTemperature" queries.
Proof.
  intros H Hm.
  split.
  { apply getSystemMetrics_snapshot in H; [|exact Hm]. destruct H as [H _].
    apply try_body_Normal in H.
    destruct H as (cpu & memory & disk & network & currentLoad & osInfo & system
                   & graphics & processes & Hsi & H).
    apply snapshot_Normal in H.
    destruct H as (c & me & d & n & dv & p & g & -> & Hc & _).
    apply cpu_record_Normal in Hc. subst c.
    exists currentLoad. split; [apply Hsi | reflexivity]. }
  split.
  { intros st ev fn. rewrite step_calls.
    destruct ev; try contradiction.
    destruct (0 <? connectedClients st)%Z; [auto | contradiction]. }
  simpl. intros Hin.
  repeat (destruct Hin as [Hin | Hin]; [discriminate Hin|]). exact Hin.
Qed.

(** ** More on the sampler: when it succeeds, what it keeps *)

Lemma get_readable o p : nullish o = false -> o.[p] = Normal (field o p).
Proof. destruct o; simpl; intros H; try discriminate H; reflexivity. Qed.

Lemma get_Normal_readable o p v : o.[p] = Normal v -> nullish o = false.
Proof. destruct o; simpl; intros H; try discriminate H; reflexivity. Qed.

Lemma is_fulfilled_settled p : is_fulfilled p = true -> p = Fulfilled (settled_value p).
Proof. destruct p; simpl; [reflexivity | discriminate]. Qed.

Lemma disk_entry_readable d : nullish d = false -> disk_entry d = Normal (disk_summary d).
Proof. intros H. unfold disk_entry. now rewrite !(get_readable d) by exact H. Qed.

Lemma network_entry_readable n :
  nullish n = false -> network_entry n = Normal (network_summary n).
Proof. intros H. unfold network_entry. now rewrite !(get_readable n) by exact H. Qed.

Lemma graphics_entry_readable g :
  nullish g = false -> graphics_entry g = Normal (graphics_summary g).
Proof. intros H. unfold graphics_entry. now rewrite !(get_readable g) by exact H. Qed.

Lemma process_entry_readable p :
  nullish p = false -> process_entry p = Normal (process_summary p).
Proof. intros H. unfold process_entry. now rewrite !(get_readable p) by exact H. Qed.

Lemma entry_Normal_readable (f : value -> completion value) (key : string) rest x y :
  (forall v, f v = object ((key, v.[key]) :: rest v)) ->
  f x = Normal y -> nullish x = false.
Proof.
  intros Hf H. rewrite Hf in H.
  apply object_Normal in H. destruct H as (vs & H & _).
  apply properties_cons_Normal in H. destruct H as (v & vs' & Hg & _).
  now apply get_Normal_readable in Hg.
Qed.

(** [.map] over an array of readable elements yields the summaries,
    in order; it completes only on readable elements. *)
Lemma map_elems_readable f g l :
  (forall x, nullish x = false -> f x = Normal (g x)) ->
  readable l = true -> map_elems f l = Normal (map g l).
Proof.
  intros Hf. unfold readable.
  induction l as [|x l IH]; simpl; intros H; [reflexivity|].
  apply andb_prop in H. destruct H as [Hx Hl].
  apply negb_true_iff in Hx. now rewrite (Hf x Hx), (IH Hl).
Qed.

Lemma Forall2_readable (f : value -> completion value) g l ys :
  (forall x y, f x = Normal y -> nullish x = false) ->
  (forall x, nullish x = false -> f x = Normal (g x)) ->
  Forall2 (fun x y => f x = Normal y) l ys ->
  readable l = true /\ ys = map g l.
Proof.
  intros Hinv Hf. unfold readable.
  induction 1 as [|x y l ys Hxy _ [IHr IHm]]; simpl; [split; reflexivity|].
  pose proof (Hinv x y Hxy) as Hx.
  rewrite Hx, IHr. split; [reflexivity|].
  rewrite (Hf x Hx) in Hxy. injection Hxy as <-. now rewrite IHm.
Qed.

Lemma disk_entry_Normal_readable d e : disk_entry d = Normal e -> nullish d = false.
Proof.
  apply (entry_Normal_readable disk_entry "fs"
           (fun d => [("size", d.["size"]); ("used", d.["used"]);
                      ("available", d.["available"]);
                      ("percentage",
                        u <- d.["used"] ;; s <- d.["size"] ;;
                        Normal (js_mul (js_div u s) (VNum 100)))])).
  reflexivity.
Qed.

Lemma network_entry_Normal_readable n e :
  network_entry n = Normal e -> nullish n = false.
Proof.
  apply (entry_Normal_readable network_entry "iface"
           (fun n => [("rx_sec", r <- n.["rx_sec"] ;; Normal (js_or r (VNum 0)));
                      ("tx_sec", t <- n.["tx_sec"] ;; Normal (js_or t (VNum 0)))])).
  reflexivity.
Qed.

Lemma graphics_entry_Normal_readable g e :
  graphics_entry g = Normal e -> nullish g = false.
Proof.
  apply (entry_Normal_readable graphics_entry "vendor"
           (fun g => [("model", g.["model"]); ("vram", g.["vram"])])).
  reflexivity.
Qed.

Lemma process_entry_Normal_readable p e :
  process_entry p = Normal e -> nullish p = false.
Proof.
  apply (entry_Normal_readable process_entry "pid"
           (fun p => [("name", p.["name"]); ("cpu", p.["cpu"]); ("mem", p.["mem"])])).
  reflexivity.
Qed.

(** [a.map(entry)] completes exactly on an array of readable
    elements, with the array of their summaries. *)
Lemma js_map_summaries (entry : value -> completion value) summary a :
  (forall x y, entry x = Normal y -> nullish x = false) ->
  (forall x, nullish x = false -> entry x = Normal (summary x)) ->
  (forall m, js_map a entry = Normal m ->
     exists l, a = VArr l /\ readable l = true /\ m = VArr (map summary l)) /\
  (readable_array a = true ->
     exists l, a = VArr l /\ js_map a entry = Normal (VArr (map summary l))).
Proof.
  intros Hinv Hf. split.
  - intros m H. apply js_map_Normal in H. destruct H as (l & ys & -> & -> & Hall).
    destruct (Forall2_readable entry summary l ys Hinv Hf Hall) as [Hr ->].
    exists l. repeat split; assumption.
  - destruct a; simpl; try discriminate. intros Hr.
    exists elems. split; [reflexivity|].
    now rewrite (map_elems_readable entry summary elems Hf Hr).
Qed.

Lemma cpu_record_completes cpu currentLoad :
  if nullish cpu || nullish currentLoad
  then cpu_record cpu currentLoad = Throw TypeError
  else exists c, cpu_record cpu currentLoad = Normal c.
Proof.
  destruct cpu, currentLoad;
    cbv [cpu_record object properties bind get nullish orb]; eauto.
Qed.

Lemma memory_record_completes memory :
  if nullish memory
  then memory_record memory = Throw TypeError
  else exists me, memory_record memory = Normal me.
Proof.
  destruct memory; cbv [memory_record object properties bind get nullish]; eauto.
Qed.

Lemma device_record_completes osInfo system :
  if nullish osInfo || nullish system
  then device_record osInfo system = Throw TypeError
  else exists dv, device_record osInfo system = Normal dv.
Proof.
  destruct osInfo, system;
    cbv [device_record object properties bind get nullish orb]; eauto.
Qed.

Lemma processes_record_readable processes r :
  processes_record processes = Normal r ->
  nullish processes = false /\ readable_prefix 10 (field processes "list") = true.
Proof.
  unfold processes_record. intros H.
  apply object_Normal in H. destruct H as (vs & H & _).
  apply properties_cons_Normal in H. destruct H as (v & vs' & Hall & H & _).
  apply get_Normal_readable in Hall. split; [exact Hall|].
  do 2 (apply properties_cons_Normal in H; destruct H as (? & ? & _ & H & _)).
  apply properties_cons_Normal in H. destruct H as (top' & ? & H & _).
  apply bind_Normal in H. destruct H as (l & Hl & H).
  apply get_field in Hl. subst l.
  apply bind_Normal in H. destruct H as (top & Hs & H).
  destruct (js_map_summaries process_entry process_summary top
              process_entry_Normal_readable process_entry_readable) as [Hinv _].
  destruct (Hinv _ H) as (kept & -> & Hr & _).
  destruct (field processes "list"); try discriminate Hs.
  unfold js_slice0 in Hs. injection Hs as <-. exact Hr.
Qed.

Lemma processes_record_completes processes :
  nullish processes = false ->
  readable_prefix 10 (field processes "list") = true ->
  exists r, processes_record processes = Normal r.
Proof.
  intros Hp Hr. unfold processes_record, object. cbn [properties].
  rewrite !(get_readable processes) by exact Hp. cbn [bind].
  destruct (field processes "list") as [| | | | |table|]; try discriminate Hr.
  cbn [js_slice0 bind js_map].
  rewrite (map_elems_readable process_entry process_summary _
             process_entry_readable Hr).
  cbn [bind]. eauto.
Qed.

Lemma graphics_Normal graphics g :
  (c <- graphics.["controllers"] ;; js_map c graphics_entry) = Normal g ->
  exists controllers,
    nullish graphics = false /\
    field graphics "controllers" = VArr controllers /\
    readable controllers = true /\
    g = VArr (map graphics_summary controllers).
Proof.
  intros H. apply bind_Normal in H. destruct H as (c & Hc & H).
  pose proof (get_Normal_readable _ _ _ Hc) as Hg.
  apply get_field in Hc. subst c.
  destruct (js_map_summaries graphics_entry graphics_summary
              (field graphics "controllers")
              graphics_entry_Normal_readable graphics_entry_readable) as [Hinv _].
  destruct (Hinv _ H) as (l & Hl & Hr & ->).
  exists l. repeat split; assumption.
Qed.

Lemma snapshot_graphics_Normal now cpu memory disk network currentLoad osInfo system
  graphics processes m :
  snapshot now cpu memory disk network currentLoad osInfo system graphics processes
    = Normal m ->
  exists g,
    (c <- graphics.["controllers"] ;; js_map c graphics_entry) = Normal g /\
    field m "graphics" = g.
Proof.
  unfold snapshot. intros H.
  apply object_Normal in H. destruct H as (vs & H & ->).
  do 7 (apply properties_cons_Normal in H; destruct H as (? & ? & _ & H & ->)).
  apply properties_cons_Normal in H. destruct H as (g & ? & Hg & H & ->).
  exists g. split; [exact Hg | reflexivity].
Qed.

Lemma snapshot_Normal_readable now cpu memory disk network currentLoad osInfo system
  graphics processes m :
  snapshot now cpu memory disk network currentLoad osInfo system graphics processes
    = Normal m ->
  literal_readable cpu memory disk network currentLoad osInfo system graphics processes
    = true.
Proof.
  intros H.
  destruct (snapshot_graphics_Normal _ _ _ _ _ _ _ _ _ _ _ H) as (g & Hg & _).
  apply graphics_Normal in Hg. destruct Hg as (ctrls & Hgn & Hgc & Hgr & _).
  apply snapshot_Normal in H.
  destruct H as (c & me & d & n & dv & p & g' & _ & Hc & Hme & Hd & Hn & Hdv & Hp).
  pose proof (cpu_record_completes cpu currentLoad) as Hcpu.
  pose proof (memory_record_completes memory) as Hmem.
  pose proof (device_record_completes osInfo system) as Hdev.
  apply processes_record_readable in Hp. destruct Hp as [Hpn Hpr].
  destruct (js_map_summaries disk_entry disk_summary disk
              disk_entry_Normal_readable disk_entry_readable) as [Hdi _].
  destruct (Hdi _ Hd) as (vols & -> & Hvols & _).
  destruct (js_map_summaries network_entry network_summary network
              network_entry_Normal_readable network_entry_readable) as [Hni _].
  destruct (Hni _ Hn) as (ifaces & -> & Hifaces & _).
  unfold literal_readable. rewrite Hgn, Hgc, Hpn, Hpr. simpl readable_array.
  rewrite Hvols, Hifaces, Hgr.
  destruct (nullish cpu); [simpl in Hcpu; congruence|].
  destruct (nullish currentLoad); [simpl in Hcpu; congruence|].
  destruct (nullish memory); [congruence|].
  destruct (nullish osInfo); [simpl in Hdev; congruence|].
  destruct (nullish system); [simpl in Hdev; congruence|].
  reflexivity.
Qed.

Lemma snapshot_completes now cpu memory disk network currentLoad osInfo system
  graphics processes :
  literal_readable cpu memory disk network currentLoad osInfo system graphics processes
    = true ->
  exists m,
    snapshot now cpu memory disk network currentLoad osInfo system graphics processes
      = Normal m.
Proof.
  unfold literal_readable. intros H.
  apply andb_prop in H. destruct H as [H Hlist].
  apply andb_prop in H. destruct H as [H Hprocesses].
  apply andb_prop in H. destruct H as [H Hcontrollers].
  apply andb_prop in H. destruct H as [H Hgraphics].
  apply andb_prop in H. destruct H as [H Hsystem].
  apply andb_prop in H. destruct H as [H HosInfo].
  apply andb_prop in H. destruct H as [H HcurrentLoad].
  apply andb_prop in H. destruct H as [H Hnetwork].
  apply andb_prop in H. destruct H as [H Hdisk].
  apply andb_prop in H. destruct H as [Hcpu Hmemory].
  apply negb_true_iff in Hprocesses, Hgraphics, Hsystem, HosInfo, HcurrentLoad,
    Hcpu, Hmemory.
  pose proof (cpu_record_completes cpu currentLoad) as Hc.
  pose proof (memory_record_completes memory) as Hme.
  pose proof (device_record_completes osInfo system) as Hdv.
  rewrite Hcpu, HcurrentLoad in Hc. rewrite Hmemory in Hme.
  rewrite HosInfo, Hsystem in Hdv. simpl in Hc, Hdv.
  destruct Hc as (c & Hc), Hme as (me & Hme), Hdv as (dv & Hdv).
  destruct (processes_record_completes processes Hprocesses Hlist) as (p & Hp).
  destruct (js_map_summaries disk_entry disk_summary disk
              disk_entry_Normal_readable disk_entry_readable) as [_ Hd].
  destruct (Hd Hdisk) as (vols & _ & Hvols).
  destruct (js_map_summaries network_entry network_summary network
              network_entry_Normal_readable network_entry_readable) as [_ Hn].
  destruct (Hn Hnetwork) as (ifaces & _ & Hifaces).
  destruct (js_map_summaries graphics_entry graphics_summary
              (field graphics "controllers")
              graphics_entry_Normal_readable graphics_entry_readable) as [_ Hg].
  destruct (Hg Hcontrollers) as (ctrls & _ & Hctrls).
  unfold snapshot, object. cbn [properties].
  rewrite Hc, Hme, Hvols, Hifaces, Hdv, Hp, (get_readable graphics) by exact Hgraphics.
  cbn [bind]. rewrite Hctrls. cbn [bind]. eauto.
Qed.

(** X1: the sampler returns a snapshot, and logs nothing, exactly
    when the nine promises are fulfilled and every value the object
    literal reads a property of is neither [undefined] nor [null]: the
    six records, every element of the volume, interface and controller
    arrays, and the first ten entries of the process table (the
    entries after the tenth are never looked at).  In every other case
    it returns [null] after exactly one [console.error]. *)
Theorem sampler_succeeds_iff_readable si now :
  (samplable si = true ->
   exists m, getSystemMetrics si now = (m, []) /\ m <> VNull) /\
  (samplable si = false ->
   exists e, getSystemMetrics si now
             = (VNull, [ConsoleError "Error getting system metrics:" e])).
Proof.
  split.
  - unfold samplable. intros H. apply andb_prop in H. destruct H as [Hall Hr].
    simpl in Hall.
    repeat (apply andb_prop in Hall; destruct Hall as [? Hall]).
    repeat match goal with
           | Hf : is_fulfilled _ = true |- _ => apply is_fulfilled_settled in Hf
           end.
    destruct (snapshot_completes now _ _ _ _ _ _ _ _ _ Hr) as (m & Hm).
    exists m.
    assert (Hb : try_body si now = Normal m).
    { unfold try_body, queries. simpl map.
      repeat match goal with
             | Hf : si ?q = Fulfilled _ |- _ => rewrite Hf; clear Hf
             end.
      simpl. exact Hm. }
    unfold getSystemMetrics. rewrite Hb. split; [reflexivity|].
    intros ->. apply try_body_truthy in Hb. discriminate.
  - intros Hno.
    destruct (getSystemMetrics_cases si now) as [(e & _ & He) | (m & Hb & _)].
    + exists e. exact He.
    + exfalso. apply try_body_Normal in Hb.
      destruct Hb as (cpu & memory & disk & network & currentLoad & osInfo & system
                      & graphics & processes & Hsi & Hsnap).
      destruct Hsi as (H1 & H2 & H3 & H4 & H5 & H6 & H7 & H8 & H9).
      apply snapshot_Normal_readable in Hsnap.
      unfold samplable, queries in Hno. simpl forallb in Hno.
      rewrite H1, H2, H3, H4, H5, H6, H7, H8, H9 in Hno. simpl in Hno.
      congruence.
Qed.

(** X2: in every snapshot the sampler returns, [disk], [network] and
    [graphics] hold one entry for each volume, interface and
    controller the collaborator reported, in the reported order, each
    entry being the summary of the element at the same position:
    unlike the process table, these sequences are never cut short. *)
Theorem sequences_keep_every_entry si now m log :
  getSystemMetrics si now = (m, log) -> m <> VNull ->
  exists volumes ifaces graphics controllers,
    si "fsSize" = Fulfilled (VArr volumes) /\
    si "networkStats" = Fulfilled (VArr ifaces) /\
    si "graphics" = Fulfilled graphics /\
    field graphics "controllers" = VArr controllers /\
    field m "disk" = VArr (map disk_summary volumes) /\
    field m "network" = VArr (map network_summary ifaces) /\
    field m "graphics" = VArr (map graphics_summary controllers) /\
    (forall i d, nth_error volumes i = Some d ->
       nth_error (map disk_summary volumes) i = Some (disk_summary d)).
Proof.
  intros H Hm.
  apply getSystemMetrics_snapshot in H; [|exact Hm]. destruct H as [H _].
  apply try_body_Normal in H.
  destruct H as (cpu & memory & disk & network & currentLoad & osInfo & system
                 & graphics & processes & Hsi & H).
  destruct (snapshot_graphics_Normal _ _ _ _ _ _ _ _ _ _ _ H) as (g & Hg & Hfg).
  apply graphics_Normal in Hg. destruct Hg as (ctrls & _ & Hgc & _ & ->).
  apply snapshot_Normal in H.
  destruct H as (c & me & d & n & dv & p & g' & -> & _ & _ & Hd & Hn & _).
  destruct (js_map_summaries disk_entry disk_summary disk
              disk_entry_Normal_readable disk_entry_readable) as [Hdi _].
  destruct (Hdi _ Hd) as (vols & -> & _ & ->).
  destruct (js_map_summaries network_entry network_summary network
              network_entry_Normal_readable network_entry_readable) as [Hni _].
  destruct (Hni _ Hn) as (ifaces & -> & _ & ->).
  exists vols, ifaces, graphics, ctrls.
  destruct Hsi as (_ & _ & H3 & H4 & _ & _ & _ & H8 & _).
  repeat split; try assumption; try reflexivity.
  intros i d0 Hi. now rewrite nth_error_map, Hi.
Qed.

(** *** The unguarded division *)

Lemma Prim2SF_nan : Prim2SF nan = S754_nan.
Proof. reflexivity. Qed.

Lemma SFcompare_refl f : f <> S754_nan -> SFcompare f f = Some Eq.
Proof.
  destruct f as [s|s| |s m e]; simpl; intros H; try congruence.
  - destruct s; reflexivity.
  - destruct s; rewrite Z.compare_refl, Pos.compare_cont_refl; reflexivity.
Qed.

(** The only number that is not equal to itself is [NaN]. *)
Lemma not_self_equal_is_nan x : PrimFloat.eqb x x = false -> x = nan.
Proof.
  rewrite FloatAxioms.eqb_spec. unfold SFeqb. intros H.
  apply Prim2SF_inj. rewrite Prim2SF_nan.
  destruct (Prim2SF x) eqn:Hx; try reflexivity;
    rewrite SFcompare_refl in H; congruence.
Qed.

Lemma div_nan_r x : (x / nan)%float = nan.
Proof.
  apply Prim2SF_inj. rewrite FloatAxioms.div_spec, Prim2SF_nan.
  unfold SF64div, SFdiv. destruct (Prim2SF x); reflexivity.
Qed.

Lemma div_nan_l x : (nan / x)%float = nan.
Proof.
  apply Prim2SF_inj. rewrite FloatAxioms.div_spec, Prim2SF_nan. reflexivity.
Qed.

Lemma ltb_nan_l y : PrimFloat.ltb nan y = false.
Proof. rewrite FloatAxioms.ltb_spec, Prim2SF_nan. reflexivity. Qed.

Lemma positive_div_zero x : PrimFloat.ltb 0 x = true -> (x / 0)%float = infinity.
Proof.
  rewrite FloatAxioms.ltb_spec. intros H.
  apply Prim2SF_inj. rewrite FloatAxioms.div_spec.
  change (Prim2SF 0) with (S754_zero false) in *.
  change (Prim2SF infinity) with (S754_infinity false).
  destruct (Prim2SF x) as [s|s| |s m e]; simpl in H; try discriminate;
    destruct s; try discriminate; reflexivity.
Qed.

Lemma division_edges u t :
  percentage_edges u t (js_mul (js_div u t) (VNum 100)).
Proof.
  unfold percentage_edges, js_mul, js_div. cbn [ToNumber].
  repeat split.
  - intros H. apply not_self_equal_is_nan in H. rewrite H, div_nan_r. reflexivity.
  - intros H. apply not_self_equal_is_nan in H. rewrite H, div_nan_l. reflexivity.
  - intros -> ->. reflexivity.
  - intros -> H. rewrite (positive_div_zero _ H). reflexivity.
Qed.

(** X3: the sampler does not guard its divisions.  In every snapshot
    it returns, the memory percentage, and the percentage of every
    volume, is [NaN] when [used] or [total] ([size]) is missing or not
    a number and when both are zero, and [+Infinity] when the total is
    zero and [used] is positive; the snapshot is returned all the
    same. *)
Theorem percentages_are_not_guarded si now m log :
  getSystemMetrics si now = (m, log) -> m <> VNull ->
  percentage_edges (field (field m "memory") "used") (field (field m "memory") "total")
    (field (field m "memory") "percentage") /\
  exists volumes,
    field m "disk" = VArr volumes /\
    Forall (fun e =>
      percentage_edges (field e "used") (field e "size") (field e "percentage")) volumes.
Proof.
  intros H Hm.
  apply getSystemMetrics_snapshot in H; [|exact Hm]. destruct H as [H _].
  apply try_body_Normal in H.
  destruct H as (cpu & memory & disk & network & currentLoad & osInfo & system
                 & graphics & processes & _ & H).
  apply snapshot_Normal in H.
  destruct H as (c & me & d & n & dv & p & g & -> & _ & Hme & Hd & _).
  apply memory_record_Normal in Hme. subst me.
  split; [apply division_edges|].
  destruct (js_map_summaries disk_entry disk_summary disk
              disk_entry_Normal_readable disk_entry_readable) as [Hdi _].
  destruct (Hdi _ Hd) as (vols & _ & _ & ->).
  exists (map disk_summary vols). split; [reflexivity|].
  apply Forall_forall. intros e He.
  apply in_map_iff in He. destruct He as (d0 & <- & _).
  apply division_edges.
Qed.

(** ** More on the broadcast server *)

Lemma run_app evs1 :
  forall st evs2,
    run st (evs1 ++ evs2)
    = (fst (run (fst (run st evs1)) evs2),
       snd (run st evs1) ++ snd (run (fst (run st evs1)) evs2)).
Proof.
  induction evs1 as [|ev evs1 IH]; intros st evs2.
  - simpl. now destruct (run st evs2).
  - rewrite <- app_comm_cons, !run_cons, IH. simpl. now rewrite app_assoc.
Qed.

Lemma run_nil st : run st [] = (st, []).
Proof. reflexivity. Qed.

(** X4: nothing keeps the samples from overlapping.  While the counter
    is positive, [n] ticks in a row, none of whose samples has
    completed yet, leave [n] more callbacks pending and invoke the
    nine functions of the collaborator [n] times over, without
    pushing anything. *)
Theorem ticks_pile_up n :
  forall st, (1 <= connectedClients st)%Z ->
    pending (fst (run st (repeat Tick n))) = (pending st + n)%nat /\
    connectedClients (fst (run st (repeat Tick n))) = connectedClients st /\
    sockets (fst (run st (repeat Tick n))) = sockets st /\
    calls (snd (run st (repeat Tick n))) = List.concat (repeat queries n) /\
    emissions (snd (run st (repeat Tick n))) = [].
Proof.
  induction n as [|n IH]; intros st Hc.
  - simpl. repeat split; try reflexivity. lia.
  - assert (Hpos : (0 <? connectedClients st)%Z = true) by (apply Z.ltb_lt; lia).
    cbn [repeat]. rewrite run_cons.
    assert (Hstep : step st Tick
                    = ({| connectedClients := connectedClients st;
                          sockets := sockets st; pending := S (pending st) |},
                       map Called queries)).
    { simpl. unfold on_tick. now rewrite Hpos. }
    rewrite Hstep. cbn [fst snd].
    destruct (IH {| connectedClients := connectedClients st;
                    sockets := sockets st; pending := S (pending st) |} Hc)
      as (Hp & Hcc & Hs & Hcalls & Hem).
    cbn [pending connectedClients sockets] in Hp, Hcc, Hs.
    rewrite Hp, Hcc, Hs, calls_app, emissions_app, Hcalls, Hem,
      calls_queries, emissions_queries.
    repeat split; try reflexivity. lia.
Qed.

Lemma sampled_failed si now q r st :
  In q queries -> si q = Rejected r -> sampled st (Settled si now) = [].
Proof.
  intros Hin Hq.
  destruct (sampler_fails_as_a_unit si now q r Hin Hq) as (r' & Hnull).
  unfold sampled. destruct (pending st); [reflexivity|]. now rewrite Hnull.
Qed.

Lemma sampled_snapshot si now m st :
  getSystemMetrics si now = (m, []) -> m <> VNull -> pending st <> O ->
  sampled st (Settled si now) = [m].
Proof.
  intros Hg Hm Hp. unfold sampled.
  destruct (pending st); [contradiction|].
  rewrite Hg. simpl.
  apply getSystemMetrics_snapshot in Hg; [|exact Hm]. destruct Hg as [Hb _].
  now rewrite (try_body_truthy _ _ _ Hb).
Qed.

Lemma step_tick_sampling st :
  (1 <= connectedClients st)%Z ->
  step st Tick
  = ({| connectedClients := connectedClients st; sockets := sockets st;
        pending := S (pending st) |}, map Called queries).
Proof.
  intros Hc. simpl. unfold on_tick.
  assert (Hpos : (0 <? connectedClients st)%Z = true) by (apply Z.ltb_lt; lia).
  now rewrite Hpos.
Qed.

Lemma step_settled_state st si now :
  connectedClients (fst (step st (Settled si now))) = connectedClients st /\
  sockets (fst (step st (Settled si now))) = sockets st /\
  pending (fst (step st (Settled si now))) = Nat.pred (pending st).
Proof.
  simpl. unfold on_settled. destruct (pending st) eqn:Hp.
  - simpl. rewrite Hp. repeat split.
  - destruct (getSystemMetrics si now). repeat split.
Qed.

(** X5: a failed sample leaves no mark.  When the sample of one tick
    fails on a rejected promise, the sample of the next tick, if it
    gives a snapshot, is pushed to every socket exactly as if the
    failure had not happened, and these are the only pushes of the two
    ticks. *)
Theorem next_tick_after_failure st si_bad now1 q r si now2 m :
  (1 <= connectedClients st)%Z ->
  In q queries -> si_bad q = Rejected r ->
  getSystemMetrics si now2 = (m, []) -> m <> VNull ->
  emissions (snd (run st [Tick; Settled si_bad now1; Tick; Settled si now2]))
  = map (fun s => Emitted s "systemMetrics" m) (sockets st) /\
  pending (fst (run st [Tick; Settled si_bad now1; Tick; Settled si now2]))
  = pending st.
Proof.
  intros Hc Hin Hq Hg Hm.
  rewrite run_cons, (step_tick_sampling st Hc). cbn [fst snd].
  set (st1 := {| connectedClients := connectedClients st; sockets := sockets st;
                 pending := S (pending st) |}).
  rewrite run_cons.
  destruct (step_settled_state st1 si_bad now1) as (Hc2 & Hs2 & Hp2).
  set (st2 := fst (step st1 (Settled si_bad now1))) in *.
  cbn [connectedClients sockets pending st1 Nat.pred] in Hc2, Hs2, Hp2.
  assert (Hc2' : (1 <= connectedClients st2)%Z) by (rewrite Hc2; exact Hc).
  rewrite run_cons, (step_tick_sampling st2 Hc2'). cbn [fst snd].
  set (st3 := {| connectedClients := connectedClients st2; sockets := sockets st2;
                 pending := S (pending st2) |}).
  rewrite run_cons, run_nil. cbn [fst snd]. rewrite app_nil_r.
  rewrite !emissions_app, !emissions_queries, !step_emissions.
  rewrite (sampled_failed si_bad now1 q r st1 Hin Hq).
  rewrite (sampled_snapshot si now2 m st3 Hg Hm) by discriminate.
  destruct (step_settled_state st3 si now2) as (_ & _ & Hp4).
  rewrite Hp4. cbn [flat_map app pending st3 Nat.pred].
  unfold io_emit. subst st3. cbn [sockets].
  rewrite Hs2, app_nil_r. split; [reflexivity | exact Hp2].
Qed.

Lemma remove_first_app_fresh (s : socket) (l : list socket) :
  existsb (String.eqb s) l = false -> remove_first s (l ++ [s]) = l.
Proof.
  induction l as [|x l IH]; simpl; intros H.
  - now rewrite String.eqb_refl.
  - apply orb_false_iff in H. destruct H as [Hx Hl].
    rewrite String.eqb_sym, Hx. now rewrite (IH Hl).
Qed.

(** X6: a viewer that connects and leaves again leaves the server as
    it found it: the counter, the registry and the pending callbacks
    are what they were before the connection. *)
Theorem connect_then_disconnect_restores st s :
  connected s st = false ->
  fst (run st [Connection s; Disconnect s]) = st.
Proof.
  unfold connected. intros Hs.
  simpl. unfold on_disconnect, connected. cbn [sockets fst].
  rewrite existsb_app. simpl. rewrite String.eqb_refl, orb_true_r.
  cbn [fst]. rewrite (remove_first_app_fresh s _ Hs).
  destruct st as [c l p]. cbn [connectedClients sockets pending].
  f_equal. lia.
Qed.

Lemma step_received st ev s :
  NoDup (sockets st) ->
  received s (snd (step st ev)) = if connected s st then sampled st ev else [].
Proof.
  intros Hnd. rewrite <- received_emissions, step_emissions.
  assert (Hs : sampled st ev = [] \/ exists m, sampled st ev = [m]).
  { unfold sampled. destruct ev; auto. destruct (pending st); auto.
    destruct (ToBoolean (fst (getSystemMetrics si now))); eauto. }
  destruct Hs as [-> | (m & ->)]; simpl.
  - now destruct (connected s st).
  - rewrite app_nil_r. unfold io_emit. now rewrite received_push.
Qed.

Lemma received_queries s (qs : list string) : received s (map Called qs) = [].
Proof.
  unfold received. induction qs as [|q qs IH]; simpl; [reflexivity | exact IH].
Qed.

(** X7: who receives a snapshot is decided when the sample completes,
    not when the tick fires.  A viewer that connects while the sample
    is in flight receives it, and a viewer that left in the meantime
    does not. *)
Theorem push_goes_to_viewers_at_completion st si now m s :
  NoDup (sockets st) -> (1 <= connectedClients st)%Z ->
  getSystemMetrics si now = (m, []) -> m <> VNull ->
  (connected s st = false ->
   received s (snd (run st [Tick; Connection s; Settled si now])) = [m]) /\
  (connected s st = true ->
   received s (snd (run st [Tick; Disconnect s; Settled si now])) = []).
Proof.
  intros Hnd Hc Hg Hm.
  pose proof (step_tick_sampling st Hc) as Htick.
  set (st1 := {| connectedClients := connectedClients st; sockets := sockets st;
                 pending := S (pending st) |}) in *.
  split; intros Hs.
  - rewrite run_cons, Htick. cbn [fst snd]. rewrite run_cons.
    set (st2 := fst (step st1 (Connection s))).
    rewrite run_cons, run_nil. cbn [snd]. rewrite app_nil_r.
    rewrite !received_app, received_queries.
    assert (Hnd2 : NoDup (sockets st2)).
    { apply (registry_has_no_duplicates [Connection s] st1 Hnd).
      simpl. split; [exact Hs | exact I]. }
    rewrite (step_received st2 _ s Hnd2).
    rewrite (sampled_snapshot si now m st2 Hg Hm) by discriminate.
    unfold connected. cbn [st2 step on_connection fst sockets st1].
    rewrite existsb_app. simpl. rewrite String.eqb_refl, orb_true_r. reflexivity.
  - rewrite run_cons, Htick. cbn [fst snd]. rewrite run_cons.
    set (st2 := fst (step st1 (Disconnect s))).
    rewrite run_cons, run_nil. cbn [snd]. rewrite app_nil_r.
    rewrite !received_app, received_queries.
    assert (Hst2 : sockets st2 = remove_first s (sockets st)).
    { unfold st2. simpl. unfold on_disconnect.
      change (connected s st1) with (connected s st). now rewrite Hs. }
    assert (Hnd2 : NoDup (sockets st2)).
    { rewrite Hst2. now apply remove_first_NoDup. }
    rewrite (step_received st2 _ s Hnd2).
    assert (Hgone : connected s st2 = false).
    { unfold connected. rewrite Hst2.
      destruct (existsb (String.eqb s) (remove_first s (sockets st))) eqn:He;
        [|reflexivity].
      apply existsb_eqb_In in He. exfalso. revert He. clear - Hnd.
      induction Hnd as [|x l Hx Hl IH]; simpl; [tauto|].
      destruct (String.eqb x s) eqn:Hxs.
      - apply String.eqb_eq in Hxs. subst x. exact Hx.
      - intros [-> | Hin]; [now rewrite String.eqb_refl in Hxs | now apply IH]. }
    rewrite Hgone.
    simpl. unfold on_disconnect. change (connected s st1) with (connected s st).
    rewrite Hs. reflexivity.
Qed.

(** X8: a health request changes nothing but for its own answer.  In
    any run, the state after the request is the state before it, the
    answer reports the counter of that moment, and everything else the
    run does is what it would have done without the request. *)
Theorem health_request_is_read_only st evs1 evs2 :
  fst (run st (evs1 ++ GetHealth :: evs2)) = fst (run st (evs1 ++ evs2)) /\
  snd (run st (evs1 ++ GetHealth :: evs2))
  = snd (run st evs1)
    ++ Responded (health_body (connectedClients (fst (run st evs1))))
    :: snd (run (fst (run st evs1)) evs2) /\
  snd (run st (evs1 ++ evs2))
  = snd (run st evs1) ++ snd (run (fst (run st evs1)) evs2).
Proof.
  rewrite !run_app, run_cons. cbn [fst snd step on_health app].
  repeat split.
Qed.

Lemma sampled_truthy st ev m : In m (sampled st ev) -> ToBoolean m = true.
Proof.
  unfold sampled. destruct ev; try contradiction.
  destruct (pending st); [contradiction|].
  destruct (ToBoolean (fst (getSystemMetrics si now))) eqn:Ht; [|contradiction].
  intros [<- | []]. exact Ht.
Qed.

Lemma step_push st e to ev payload :
  In (Emitted to ev payload) (snd (step st e)) ->
  ev = "systemMetrics" /\ In to (sockets st) /\ In payload (sampled st e).
Proof.
  intros Hin.
  assert (Hem : In (Emitted to ev payload) (emissions (snd (step st e)))).
  { unfold emissions. apply filter_In. split; [exact Hin | reflexivity]. }
  rewrite step_emissions in Hem. apply in_flat_map in Hem.
  destruct Hem as (m & Hm & Hpush). unfold io_emit in Hpush.
  apply in_map_iff in Hpush. destruct Hpush as (s & Heq & Hs).
  injection Heq as -> <- ->. repeat split; assumption.
Qed.

(** X9: the server never pushes anything but snapshots.  Every event
    pushed in a run is a [systemMetrics] event whose payload is a
    snapshot sampled in that run, so it is never [null]: it is truthy
    and carries as timestamp one of the clock readings of the run. *)
Theorem every_push_is_a_snapshot evs :
  forall st to ev payload,
    In (Emitted to ev payload) (snd (run st evs)) ->
    ev = "systemMetrics" /\
    In payload (snapshots st evs) /\
    ToBoolean payload = true /\
    exists now, In now (readings evs) /\ field payload "timestamp" = VNum now.
Proof.
  induction evs as [|e evs IH]; intros st to ev payload Hin; [contradiction|].
  assert (Hsnap : ev = "systemMetrics" /\ In payload (snapshots st (e :: evs)) /\
                  ToBoolean payload = true).
  { rewrite run_cons in Hin. cbn [snd] in Hin. apply in_app_or in Hin.
    simpl snapshots.
    destruct Hin as [Hin | Hin].
    - apply step_push in Hin. destruct Hin as (-> & _ & Hs).
      split; [reflexivity|]. split; [apply in_or_app; now left|].
      now apply sampled_truthy in Hs.
    - apply IH in Hin. destruct Hin as (-> & Hs & Ht & _).
      split; [reflexivity|]. split; [apply in_or_app; now right | exact Ht]. }
  destruct Hsnap as (-> & Hs & Ht).
  split; [reflexivity|]. split; [exact Hs|]. split; [exact Ht|].
  now apply snapshots_timestamps in Hs.
Qed.

(** ** The colours of the monitor *)

(** X11: the three colour functions of the monitor sort every
    percentage into the same bands: two percentages get the same
    usage colour exactly when they get the same CPU gradient, and
    exactly when they get the same memory gradient. *)
Theorem colour_bands_agree p q :
  (getUsageColor p = getUsageColor q <-> getCPUColor p = getCPUColor q) /\
  (getUsageColor p = getUsageColor q <-> getMemoryColor p = getMemoryColor q).
Proof.
  unfold getUsageColor, getCPUColor, getMemoryColor.
  destruct (js_lt_number p 30), (js_lt_number p 60), (js_lt_number p 80),
    (js_lt_number q 30), (js_lt_number q 60), (js_lt_number q 80);
    split; split; intros H; try reflexivity; discriminate H.
Qed.

(** X12: a percentage that is not a number is shown as critical.
    When the percentage converts to [NaN] (as [undefined] does), every
    comparison fails and the three functions return the colour of the
    band of 80 and above. *)
Theorem nan_percentage_is_critical p :
  PrimFloat.eqb (ToNumber p) (ToNumber p) = false ->
  getUsageColor p = "#ef4444" /\
  getCPUColor p = "linear-gradient(90deg, #ef4444, #f87171)" /\
  getMemoryColor p = "linear-gradient(90deg, #ef4444, #f87171)".
Proof.
  intros H. apply not_self_equal_is_nan in H.
  unfold getUsageColor, getCPUColor, getMemoryColor, js_lt_number.
  rewrite H, !ltb_nan_l. repeat split.
Qed.

(** ** The shape of a snapshot, and the idle server *)

Lemma device_record_Normal osInfo system dv :
  device_record osInfo system = Normal dv ->
  keys dv = ["hostname"; "platform"; "arch"; "kernel"; "uptime";
             "manufacturer"; "model"; "version"; "serial"].
Proof.
  unfold device_record. intros H. repeat invert_normal. reflexivity.
Qed.

(** X13: every snapshot the sampler returns has the shape the viewer
    declares for it: the eight properties [timestamp], [cpu],
    [memory], [disk], [network], [device], [processes] and
    [graphics], in this order and no other, each record with its own
    fixed properties, and every entry of the four sequences with the
    properties of its kind. *)
Theorem snapshot_has_fixed_shape si now m log :
  getSystemMetrics si now = (m, log) -> m <> VNull ->
  keys m = ["timestamp"; "cpu"; "memory"; "disk"; "network"; "device";
            "processes"; "graphics"] /\
  keys (field m "cpu")
  = ["brand"; "cores"; "physicalCores"; "usage"; "speed"; "temperature"] /\
  keys (field m "memory") = ["total"; "used"; "available"; "percentage"] /\
  keys (field m "device")
  = ["hostname"; "platform"; "arch"; "kernel"; "uptime";
     "manufacturer"; "model"; "version"; "serial"] /\
  keys (field m "processes") = ["all"; "running"; "sleeping"; "list"] /\
  exists volumes ifaces top controllers,
    field m "disk" = VArr volumes /\
    field m "network" = VArr ifaces /\
    field (field m "processes") "list" = VArr top /\
    field m "graphics" = VArr controllers /\
    Forall (fun e => keys e = ["fs"; "size"; "used"; "available"; "percentage"])
      volumes /\
    Forall (fun e => keys e = ["iface"; "rx_sec"; "tx_sec"]) ifaces /\
    Forall (fun e => keys e = ["pid"; "name"; "cpu"; "mem"]) top /\
    Forall (fun e => keys e = ["vendor"; "model"; "vram"]) controllers.
Proof.
  intros H Hm.
  apply getSystemMetrics_snapshot in H; [|exact Hm]. destruct H as [H _].
  apply try_body_Normal in H.
  destruct H as (cpu & memory & disk & network & currentLoad & osInfo & system
                 & graphics & processes & _ & H).
  destruct (snapshot_graphics_Normal _ _ _ _ _ _ _ _ _ _ _ H) as (g & Hg & Hfg).
  apply graphics_Normal in Hg. destruct Hg as (ctrls & _ & _ & _ & ->).
  apply snapshot_Normal in H.
  destruct H as (c & me & d & n & dv & p & g' & -> & Hc & Hme & Hd & Hn & Hdv & Hp).
  apply cpu_record_Normal in Hc. apply memory_record_Normal in Hme.
  apply device_record_Normal in Hdv.
  apply processes_record_Normal in Hp. destruct Hp as (table & _ & ->).
  destruct (js_map_summaries disk_entry disk_summary disk
              disk_entry_Normal_readable disk_entry_readable) as [Hdi _].
  destruct (Hdi _ Hd) as (vols & _ & _ & ->).
  destruct (js_map_summaries network_entry network_summary network
              network_entry_Normal_readable network_entry_readable) as [Hni _].
  destruct (Hni _ Hn) as (ifaces & _ & _ & ->).
  subst c me. simpl in Hfg. subst g'.
  split; [reflexivity|]. split; [reflexivity|]. split; [reflexivity|].
  split; [exact Hdv|]. split; [reflexivity|].
  exists (map disk_summary vols), (map network_summary ifaces),
    (map process_summary (firstn 10 table)), (map graphics_summary ctrls).
  repeat split; try reflexivity;
    apply Forall_forall; intros e He; apply in_map_iff in He;
    destruct He as (x & <- & _); reflexivity.
Qed.

(** X14: without a viewer the server stays idle for good.  From the
    start, along any run in which no viewer connects (ticks, health
    requests, stray disconnections), the state never leaves the
    initial one, no function of the collaborator is invoked and
    nothing is pushed. *)
Theorem no_viewer_no_work evs :
  no_connection evs ->
  fst (run init evs) = init /\
  calls (snd (run init evs)) = [] /\
  emissions (snd (run init evs)) = [].
Proof.
  induction 1 as [|ev evs Hev _ IH].
  - repeat split.
  - rewrite run_cons.
    assert (Hstep : fst (step init ev) = init /\ calls (snd (step init ev)) = []
                    /\ emissions (snd (step init ev)) = []).
    { destruct ev as [s|s| |si now| ]; [contradiction|..]; repeat split. }
    destruct Hstep as (-> & Hcalls & Hem). destruct IH as (IH1 & IH2 & IH3).
    cbn [fst snd]. rewrite calls_app, emissions_app, Hcalls, Hem, IH2, IH3.
    repeat split. exact IH1.
Qed.

End Runtime.

(** * Worked examples *)

(** The falsy numbers are the two zeros and [NaN]; a negative number
    is truthy. *)
Example falsy_numbers :
  ToBoolean (VNum 0) = false /\ ToBoolean (VNum (-0)) = false /\
  ToBoolean (VNum nan) = false /\ ToBoolean (VNum (-5)) = true /\
  ToBoolean (VNum 0.5) = true.
Proof. repeat split; reflexivity. Qed.

Example number_of_Z_small :
  number_of_Z 0 = 0%float /\ number_of_Z 3 = 3%float /\ number_of_Z (-2) = (-2)%float.
Proof. repeat split; reflexivity. Qed.

(** The stub host, sampled with one viewer connected: the viewer
    receives one snapshot, whose memory is half used. *)
Example one_viewer_one_tick :
  exists m,
    received "a" (snd (run nan_of nan_of init
                         [Connection "a"; Tick; Settled (stub host_facts) 1000]))
    = [m] /\
    field (field m "memory") "percentage" = VNum 50.
Proof. eexists. split; [vm_compute; reflexivity | reflexivity]. Qed.

Lemma percentages_are_derived_witness :
  let m := fst (getSystemMetrics nan_of nan_of (stub host_facts) 1000) in
  m <> VNull /\
  field (field m "memory") "percentage" = VNum 50 /\
  exists volumes,
    field m "disk" = VArr volumes /\
    Forall (fun e =>
      field e "percentage"
        = VNum (ToNumber nan_of nan_of (field e "used")
                / ToNumber nan_of nan_of (field e "size") * 100)%float)
      volumes.
Proof.
  split; [vm_compute; discriminate|].
  exact (percentages_are_derived nan_of nan_of (stub host_facts) 1000 _ []
           eq_refl ltac:(vm_compute; discriminate)).
Defined.

Lemma process_list_is_first_ten_witness :
  let m := fst (getSystemMetrics nan_of nan_of (stub host_facts) 1000) in
  m <> VNull /\
  exists processes table top,
    stub host_facts "processes" = Fulfilled processes /\
    field processes "list" = VArr table /\
    field (field m "processes") "list" = VArr top /\
    top = map process_summary (firstn 10 table) /\
    (List.length top <= 10)%nat /\
    List.length top = Nat.min 10 (List.length table) /\
    forall i, (i < 10)%nat ->
      nth_error top i = option_map process_summary (nth_error table i).
Proof.
  split; [vm_compute; discriminate|].
  exact (process_list_is_first_ten nan_of nan_of (stub host_facts) 1000 _ []
           eq_refl ltac:(vm_compute; discriminate)).
Defined.

Example twelve_processes_ten_kept :
  let m := fst (getSystemMetrics nan_of nan_of (stub host_facts) 1000) in
  field (field m "processes") "list"
  = VArr (map process_summary (map a_process (seq 1 10))).
Proof. vm_compute. reflexivity. Qed.

(** Two collaborators that answer the nine queries alike (the second
    also has an answer for [si.time()], which the server never asks
    for), sampled at two different readings of the clock. *)
Lemma sampler_depends_on_facts_and_clock_only_witness :
  let si1 := stub host_facts in
  let si2 := stub (("time", VObj [("uptime", VNum 3600)]) :: host_facts) in
  (forall q, In q queries -> si1 q = si2 q) /\
  fst (getSystemMetrics nan_of nan_of si1 1000) <> VNull /\
  exists rest,
    fst (getSystemMetrics nan_of nan_of si1 1000)
      = VObj (("timestamp", VNum 1000) :: rest) /\
    getSystemMetrics nan_of nan_of si2 2000
      = (VObj (("timestamp", VNum 2000) :: rest), []) /\
    ~ In "timestamp" (map fst rest).
Proof.
  assert (Hagree : forall q, In q queries ->
            stub host_facts q
            = stub (("time", VObj [("uptime", VNum 3600)]) :: host_facts) q).
  { intros q Hq. simpl in Hq.
    repeat (destruct Hq as [<- | Hq]; [reflexivity|]). contradiction. }
  split; [exact Hagree|].
  split; [vm_compute; discriminate|].
  exact (proj2 (sampler_depends_on_facts_and_clock_only nan_of nan_of
                  (stub host_facts)
                  (stub (("time", VObj [("uptime", VNum 3600)]) :: host_facts))
                  1000 2000 Hagree)
           _ [] eq_refl ltac:(vm_compute; discriminate)).
Defined.

Lemma network_rates_default_to_zero_witness :
  let m := fst (getSystemMetrics nan_of nan_of (stub host_facts) 1000) in
  m <> VNull /\
  exists ifaces entries,
    stub host_facts "networkStats" = Fulfilled (VArr ifaces) /\
    field m "network" = VArr entries /\
    Forall2 (fun n e =>
      (field e "rx_sec" = js_or (field n "rx_sec") (VNum 0) /\
       field e "tx_sec" = js_or (field n "tx_sec") (VNum 0)) /\
      (ToBoolean (field n "rx_sec") = false \/ nonneg_number (field n "rx_sec") = true ->
       nonneg_number (field e "rx_sec") = true) /\
      (ToBoolean (field n "tx_sec") = false \/ nonneg_number (field n "tx_sec") = true ->
       nonneg_number (field e "tx_sec") = true)) ifaces entries.
Proof.
  split; [vm_compute; discriminate|].
  exact (network_rates_default_to_zero nan_of nan_of (stub host_facts) 1000 _ []
           eq_refl ltac:(vm_compute; discriminate)).
Defined.

(** C8 as stated fails: when the collaborator reports a receive rate
    of -5, that value is truthy and so kept as it is. *)
Lemma network_rate_negative_counterexample :
  let m := fst (getSystemMetrics nan_of nan_of (stub host_facts_negative_rate) 1000) in
  m <> VNull /\
  exists e,
    field m "network" = VArr [e] /\
    field e "rx_sec" = VNum (-5) /\
    nonneg_number (field e "rx_sec") = false.
Proof.
  split; [vm_compute; discriminate|].
  eexists. split; [vm_compute; reflexivity|].
  split; vm_compute; reflexivity.
Qed.

Lemma failed_query_fails_the_sample_witness :
  (exists r',
     getSystemMetrics nan_of nan_of (stub_failing host_facts "mem") 1000
     = (VNull, [ConsoleError "Error getting system metrics:" (Reason r')])) /\
  forall st,
    sampled nan_of nan_of st (Settled (stub_failing host_facts "mem") 1000) = [] /\
    emissions (snd (step nan_of nan_of st (Settled (stub_failing host_facts "mem") 1000)))
      = [] /\
    connectedClients (fst (step nan_of nan_of st
                             (Settled (stub_failing host_facts "mem") 1000)))
      = connectedClients st /\
    sockets (fst (step nan_of nan_of st (Settled (stub_failing host_facts "mem") 1000)))
      = sockets st.
Proof.
  apply (failed_query_fails_the_sample nan_of nan_of (stub_failing host_facts "mem")
           1000 "mem" (VStr "EACCES")).
  - simpl. tauto.
  - reflexivity.
Defined.

Lemma idle_tick_is_skipped_witness :
  step nan_of nan_of init Tick = (init, []) /\
  calls (snd (step nan_of nan_of init Tick)) = [] /\
  emissions (snd (step nan_of nan_of init Tick)) = [] /\
  sampled nan_of nan_of init Tick = [].
Proof.
  apply (idle_tick_is_skipped nan_of nan_of init). reflexivity.
Defined.

Lemma broadcast_once_per_sampled_snapshot_witness :
  let m := fst (getSystemMetrics nan_of nan_of (stub host_facts) 1000) in
  let out := snd (run nan_of nan_of two_viewers [Tick; Settled (stub host_facts) 1000]) in
  calls out = queries /\
  emissions out = [Emitted "a" "systemMetrics" m; Emitted "b" "systemMetrics" m].
Proof.
  destruct (broadcast_once_per_sampled_snapshot nan_of nan_of) as (_ & _ & H & _).
  destruct (H two_viewers (stub host_facts) 1000%float _
              ltac:(discriminate) eq_refl ltac:(vm_compute; discriminate))
    as (Hcalls & Hpush & _).
  split; [exact Hcalls | exact Hpush].
Defined.

Lemma capturedAt_is_the_clock_reading_witness :
  map (fun c => (c_tick c, c_reading c)) (captures nan_of nan_of init three_ticks_in_order)
  = [(1%nat, 1000%float); (2%nat, 2000%float)] /\
  clock_nondecreasing (map c_reading (captures nan_of nan_of init three_ticks_in_order)) /\
  StronglySorted lt (map c_tick (captures nan_of nan_of init three_ticks_in_order)) /\
  forall c1 c2,
    In c1 (captures nan_of nan_of init three_ticks_in_order) ->
    In c2 (captures nan_of nan_of init three_ticks_in_order) ->
    (c_tick c1 < c_tick c2)%nat ->
    timestamp_le (c_snapshot c1) (c_snapshot c2).
Proof.
  assert (Hclock : clock_nondecreasing
                     (map c_reading (captures nan_of nan_of init three_ticks_in_order))).
  { unfold clock_nondecreasing. vm_compute map. repeat constructor. }
  assert (Hticks : StronglySorted lt
                     (map c_tick (captures nan_of nan_of init three_ticks_in_order))).
  { vm_compute map. repeat constructor. }
  split; [vm_compute; reflexivity|].
  split; [exact Hclock|]. split; [exact Hticks|].
  exact (proj2 (proj2 (capturedAt_is_the_clock_reading nan_of nan_of init
                         three_ticks_in_order)) Hclock Hticks).
Defined.

Example three_ticks_in_order_well_tagged :
  well_tagged nan_of nan_of 0 [] init three_ticks_in_order = true.
Proof. vm_compute. reflexivity. Qed.

(** C9 as stated fails, in two ways.  [Date.now()] reads the wall
    clock: when that clock is set back between two ticks, the snapshot
    of the later tick carries the smaller timestamp.  And nothing
    keeps two samples from overlapping: when the sample of the second
    tick completes before the sample of the first, the snapshot of the
    later tick carries the smaller timestamp although the clock never
    went back. *)
Lemma capturedAt_decreases_counterexample :
  (well_tagged nan_of nan_of 0 [] init two_ticks_clock_set_back = true /\
   map (fun c => (c_tick c, field (c_snapshot c) "timestamp"))
     (captures nan_of nan_of init two_ticks_clock_set_back)
   = [(0%nat, VNum 2000); (1%nat, VNum 1000)] /\
   exists c1 c2,
     In c1 (captures nan_of nan_of init two_ticks_clock_set_back) /\
     In c2 (captures nan_of nan_of init two_ticks_clock_set_back) /\
     (c_tick c1 < c_tick c2)%nat /\
     ~ timestamp_le (c_snapshot c1) (c_snapshot c2)) /\
  (well_tagged nan_of nan_of 0 [] init two_ticks_overlapping = true /\
   map (fun c => (c_tick c, field (c_snapshot c) "timestamp"))
     (captures nan_of nan_of init two_ticks_overlapping)
   = [(1%nat, VNum 1100); (0%nat, VNum 2500)] /\
   clock_nondecreasing
     (map c_reading (captures nan_of nan_of init two_ticks_overlapping)) /\
   exists c1 c2,
     In c1 (captures nan_of nan_of init two_ticks_overlapping) /\
     In c2 (captures nan_of nan_of init two_ticks_overlapping) /\
     (c_tick c1 < c_tick c2)%nat /\
     ~ timestamp_le (c_snapshot c1) (c_snapshot c2)).
Proof.
  split.
  - split; [vm_compute; reflexivity|]. split; [vm_compute; reflexivity|].
    exists (mkCapture 0 2000 (fst (getSystemMetrics nan_of nan_of (stub host_facts) 2000))),
      (mkCapture 1 1000 (fst (getSystemMetrics nan_of nan_of (stub host_facts) 1000))).
    split; [vm_compute; left; reflexivity|].
    split; [vm_compute; right; left; reflexivity|].
    split; [apply Nat.lt_0_1|].
    unfold timestamp_le. vm_compute. discriminate.
  - split; [vm_compute; reflexivity|]. split; [vm_compute; reflexivity|].
    split; [unfold clock_nondecreasing; vm_compute map; repeat constructor|].
    exists (mkCapture 0 2500 (fst (getSystemMetrics nan_of nan_of (stub host_facts) 2500))),
      (mkCapture 1 1100 (fst (getSystemMetrics nan_of nan_of (stub host_facts) 1100))).
    split; [vm_compute; right; left; reflexivity|].
    split; [vm_compute; left; reflexivity|].
    split; [apply Nat.lt_0_1|].
    unfold timestamp_le. vm_compute. discriminate.
Qed.

Example two_ticks_two_snapshots :
  map (fun m => field m "timestamp") (snapshots nan_of nan_of init two_ticks)
  = [VNum 1000; VNum 2000].
Proof. vm_compute. reflexivity. Qed.

Lemma temperature_is_user_load_witness :
  let m := fst (getSystemMetrics nan_of nan_of (stub host_facts) 1000) in
  m <> VNull /\
  (exists currentLoad,
     stub host_facts "currentLoad" = Fulfilled currentLoad /\
     field (field m "cpu") "temperature"
     = if ToBoolean (field currentLoad "currentLoadUser")
       then field currentLoad "currentLoadUser"
       else VNum 0) /\
  (forall st ev fn,
     In fn (calls (snd (step nan_of nan_of st ev))) -> In fn queries) /\
  ~ In "cpuTemperature" queries.
Proof.
  split; [vm_compute; discriminate|].
  exact (temperature_is_user_load nan_of nan_of (stub host_facts) 1000 _ []
           eq_refl ltac:(vm_compute; discriminate)).
Defined.

(** The host reports a user-mode load of 20 percent, and that is what
    the snapshot calls the temperature. *)
Example temperature_reads_user_load :
  let m := fst (getSystemMetrics nan_of nan_of (stub host_facts) 1000) in
  field (field m "cpu") "temperature" = VNum 20.
Proof. vm_compute. reflexivity. Qed.

(** With no user-mode load reported, the temperature reads 0. *)
Example temperature_defaults_to_zero :
  let m := fst (getSystemMetrics nan_of nan_of
                  (stub (("currentLoad", VObj [("currentLoad", VNum 3)]) :: host_facts))
                  1000) in
  field (field m "cpu") "temperature" = VNum 0.
Proof. vm_compute. reflexivity. Qed.

Lemma viewer_counter_and_health_witness :
  let st := fst (step nan_of nan_of init (Connection "a")) in
  connected "a" st = true /\
  connectedClients (fst (step nan_of nan_of st (Disconnect "a")))
  = (connectedClients st - 1)%Z.
Proof.
  split; [reflexivity|].
  apply (proj1 (proj2 (proj2 (viewer_counter_and_health nan_of nan_of)))).
  reflexivity.
Defined.

Example two_ticks_fresh : fresh_connections nan_of nan_of init two_ticks.
Proof. simpl. unfold on_tick, on_settled. simpl. repeat split. Qed.

(** * Worked examples for the further properties *)

(** A [null] in eleventh position of the process table is never
    read; a [null] memory report fails the whole sample. *)
Lemma sampler_succeeds_iff_readable_witness :
  (samplable (stub host_facts_null_eleventh) = true /\
   exists m,
     getSystemMetrics nan_of nan_of (stub host_facts_null_eleventh) 1000 = (m, []) /\
     m <> VNull) /\
  (samplable (stub (("mem", VNull) :: host_facts)) = false /\
   exists e,
     getSystemMetrics nan_of nan_of (stub (("mem", VNull) :: host_facts)) 1000
     = (VNull, [ConsoleError "Error getting system metrics:" e])).
Proof.
  split; (split; [reflexivity|]).
  - apply (proj1 (sampler_succeeds_iff_readable nan_of nan_of
                    (stub host_facts_null_eleventh) 1000)).
    reflexivity.
  - apply (proj2 (sampler_succeeds_iff_readable nan_of nan_of
                    (stub (("mem", VNull) :: host_facts)) 1000)).
    reflexivity.
Defined.

Lemma sequences_keep_every_entry_witness :
  let m := fst (getSystemMetrics nan_of nan_of (stub host_facts) 1000) in
  m <> VNull /\
  exists volumes ifaces graphics controllers,
    stub host_facts "fsSize" = Fulfilled (VArr volumes) /\
    stub host_facts "networkStats" = Fulfilled (VArr ifaces) /\
    stub host_facts "graphics" = Fulfilled graphics /\
    field graphics "controllers" = VArr controllers /\
    field m "disk" = VArr (map (disk_summary nan_of nan_of) volumes) /\
    field m "network" = VArr (map network_summary ifaces) /\
    field m "graphics" = VArr (map graphics_summary controllers) /\
    (forall i d, nth_error volumes i = Some d ->
       nth_error (map (disk_summary nan_of nan_of) volumes) i
       = Some (disk_summary nan_of nan_of d)).
Proof.
  split; [vm_compute; discriminate|].
  exact (sequences_keep_every_entry nan_of nan_of (stub host_facts) 1000 _ []
           eq_refl ltac:(vm_compute; discriminate)).
Defined.

Lemma percentages_are_not_guarded_witness :
  let m := fst (getSystemMetrics nan_of nan_of (stub host_facts_empty_volume) 1000) in
  m <> VNull /\
  percentage_edges nan_of nan_of
    (field (field m "memory") "used") (field (field m "memory") "total")
    (field (field m "memory") "percentage") /\
  exists volumes,
    field m "disk" = VArr volumes /\
    Forall (fun e =>
      percentage_edges nan_of nan_of
        (field e "used") (field e "size") (field e "percentage")) volumes.
Proof.
  split; [vm_compute; discriminate|].
  exact (percentages_are_not_guarded nan_of nan_of (stub host_facts_empty_volume)
           1000 _ [] eq_refl ltac:(vm_compute; discriminate)).
Defined.

(** The volume of size 0 is sent with a percentage of [NaN]. *)
Example empty_volume_percentage :
  let m := fst (getSystemMetrics nan_of nan_of (stub host_facts_empty_volume) 1000) in
  exists e, field m "disk" = VArr [e] /\ field e "percentage" = VNum nan.
Proof. eexists. split; vm_compute; reflexivity. Qed.

Lemma ticks_pile_up_witness :
  pending (fst (run nan_of nan_of one_viewer (repeat Tick 3))) = 3%nat /\
  connectedClients (fst (run nan_of nan_of one_viewer (repeat Tick 3))) = 1%Z /\
  sockets (fst (run nan_of nan_of one_viewer (repeat Tick 3))) = ["a"] /\
  calls (snd (run nan_of nan_of one_viewer (repeat Tick 3)))
  = List.concat (repeat queries 3) /\
  emissions (snd (run nan_of nan_of one_viewer (repeat Tick 3))) = [].
Proof.
  apply (ticks_pile_up nan_of nan_of 3 one_viewer). discriminate.
Defined.

Lemma next_tick_after_failure_witness :
  let m := fst (getSystemMetrics nan_of nan_of (stub host_facts) 2000) in
  emissions
    (snd (run nan_of nan_of one_viewer
            [Tick; Settled (stub_failing host_facts "mem") 1000;
             Tick; Settled (stub host_facts) 2000]))
  = [Emitted "a" "systemMetrics" m] /\
  pending
    (fst (run nan_of nan_of one_viewer
            [Tick; Settled (stub_failing host_facts "mem") 1000;
             Tick; Settled (stub host_facts) 2000]))
  = 0%nat.
Proof.
  apply (next_tick_after_failure nan_of nan_of one_viewer
           (stub_failing host_facts "mem") 1000 "mem" (VStr "EACCES")
           (stub host_facts) 2000).
  - discriminate.
  - simpl. tauto.
  - reflexivity.
  - reflexivity.
  - vm_compute. discriminate.
Defined.

Lemma connect_then_disconnect_restores_witness :
  connected "b" one_viewer = false /\
  fst (run nan_of nan_of one_viewer [Connection "b"; Disconnect "b"]) = one_viewer.
Proof.
  split; [reflexivity|].
  apply (connect_then_disconnect_restores nan_of nan_of one_viewer "b"). reflexivity.
Defined.

Lemma push_goes_to_viewers_at_completion_witness :
  let m := fst (getSystemMetrics nan_of nan_of (stub host_facts) 1000) in
  received "b"
    (snd (run nan_of nan_of one_viewer
            [Tick; Connection "b"; Settled (stub host_facts) 1000])) = [m] /\
  received "a"
    (snd (run nan_of nan_of one_viewer
            [Tick; Disconnect "a"; Settled (stub host_facts) 1000])) = [].
Proof.
  assert (Hnd : NoDup (sockets one_viewer)).
  { constructor; [intros [] | constructor]. }
  split.
  - apply (proj1 (push_goes_to_viewers_at_completion nan_of nan_of one_viewer
                    (stub host_facts) 1000 _ "b" Hnd ltac:(discriminate) eq_refl
                    ltac:(vm_compute; discriminate))).
    reflexivity.
  - apply (proj2 (push_goes_to_viewers_at_completion nan_of nan_of one_viewer
                    (stub host_facts) 1000 _ "a" Hnd ltac:(discriminate) eq_refl
                    ltac:(vm_compute; discriminate))).
    reflexivity.
Defined.

Lemma every_push_is_a_snapshot_witness :
  let m := fst (getSystemMetrics nan_of nan_of (stub host_facts) 1000) in
  In (Emitted "a" "systemMetrics" m) (snd (run nan_of nan_of init two_ticks)) /\
  In m (snapshots nan_of nan_of init two_ticks) /\
  ToBoolean m = true /\
  exists now, In now (readings two_ticks) /\ field m "timestamp" = VNum now.
Proof.
  assert (Hin : In (Emitted "a" "systemMetrics"
                      (fst (getSystemMetrics nan_of nan_of (stub host_facts) 1000)))
                   (snd (run nan_of nan_of init two_ticks))).
  { vm_compute. do 10 right. left. reflexivity. }
  split; [exact Hin|].
  exact (proj2 (every_push_is_a_snapshot nan_of nan_of two_ticks init _ _ _ Hin)).
Defined.

Lemma nan_percentage_is_critical_witness :
  getUsageColor nan_of nan_of VUndefined = "#ef4444" /\
  getCPUColor nan_of nan_of VUndefined = "linear-gradient(90deg, #ef4444, #f87171)" /\
  getMemoryColor nan_of nan_of VUndefined = "linear-gradient(90deg, #ef4444, #f87171)".
Proof.
  apply (nan_percentage_is_critical nan_of nan_of VUndefined). reflexivity.
Defined.

(** In the band from 30 to 60 the memory bar is cyan where the CPU
    bar is blue. *)
Example memory_band_is_cyan :
  getCPUColor nan_of nan_of (VNum 45) = "linear-gradient(90deg, #3b82f6, #60a5fa)" /\
  getMemoryColor nan_of nan_of (VNum 45) = "linear-gradient(90deg, #06b6d4, #22d3ee)".
Proof. split; reflexivity. Qed.

Lemma snapshot_has_fixed_shape_witness :
  let m := fst (getSystemMetrics nan_of nan_of (stub host_facts) 1000) in
  m <> VNull /\
  keys m = ["timestamp"; "cpu"; "memory"; "disk"; "network"; "device";
            "processes"; "graphics"] /\
  keys (field m "cpu")
  = ["brand"; "cores"; "physicalCores"; "usage"; "speed"; "temperature"] /\
  keys (field m "memory") = ["total"; "used"; "available"; "percentage"] /\
  keys (field m "device")
  = ["hostname"; "platform"; "arch"; "kernel"; "uptime";
     "manufacturer"; "model"; "version"; "serial"] /\
  keys (field m "processes") = ["all"; "running"; "sleeping"; "list"] /\
  exists volumes ifaces top controllers,
    field m "disk" = VArr volumes /\
    field m "network" = VArr ifaces /\
    field (field m "processes") "list" = VArr top /\
    field m "graphics" = VArr controllers /\
    Forall (fun e => keys e = ["fs"; "size"; "used"; "available"; "percentage"])
      volumes /\
    Forall (fun e => keys e = ["iface"; "rx_sec"; "tx_sec"]) ifaces /\
    Forall (fun e => keys e = ["pid"; "name"; "cpu"; "mem"]) top /\
    Forall (fun e => keys e = ["vendor"; "model"; "vram"]) controllers.
Proof.
  split; [vm_compute; discriminate|].
  exact (snapshot_has_fixed_shape nan_of nan_of (stub host_facts) 1000 _ []
           eq_refl ltac:(vm_compute; discriminate)).
Defined.

Lemma no_viewer_no_work_witness :
  let evs := [Tick; GetHealth; Disconnect "a"; Settled (stub host_facts) 1000; Tick] in
  fst (run nan_of nan_of init evs) = init /\
  calls (snd (run nan_of nan_of init evs)) = [] /\
  emissions (snd (run nan_of nan_of init evs)) = [].
Proof.
  apply (no_viewer_no_work nan_of nan_of
           [Tick; GetHealth; Disconnect "a"; Settled (stub host_facts) 1000; Tick]).
  repeat constructor.
Defined.
